(** * Internet speed dashboard: sampling, classification and the CSV log

    A shallow embedding of [flask_app.py].  The program resolves the public
    IP and the ISP record of the machine, runs a speed test, assembles a
    twelve-field [details] dict, appends it to [internet_info.csv] through
    pandas and reloads the whole file for display.

    Modelling conventions.
    - Python [str] is [string]; a JSON object of string fields (the bodies
      of both lookup services) is a [gmap string string].  Bodies that are
      not objects and fields that are not strings are outside the model.
    - A Python [float] is a binary64 number, Rocq's primitive [float]:
      [x / 1_000_000] is the IEEE division.  [repr] writes a float as Python
      does (the shortest decimal digits that read back as the same float,
      in positional or exponent layout); it is what an f-string and
      [to_csv] write.
    - The [details] dict is an association list: its insertion order is the
      column order pandas uses.
    - The outside world (both HTTP services, the speed test library, the
      clock) is a record of outcomes; the file [internet_info.csv] is an
      explicit state threaded through the cycle.
    - pandas: a [DataFrame] is a list of column names and a list of rows.
      A CSV file is kept at the level of fields (a header row and data rows
      of field texts); the quoting layer of the CSV dialect, which is
      lossless on field text, is not modelled.  [read_csv] has its default
      behaviour: the default missing-value tokens become NaN; a column
      whose remaining fields all read as numbers becomes numeric, one whose
      remaining fields are all boolean words becomes boolean, any other
      column keeps its texts.  The reader's number conversion follows the
      grammar of pandas' tokenizer and is taken as correctly rounded.  The
      int64/float64 distinction (a column of integer texts is read as
      floats here) and the renaming of duplicate header names are not
      modelled. *)

From Stdlib Require Import ZArith NArith Lia String Ascii List Bool Floats.
From stdpp Require Import base option list strings gmap.

(** A decimal literal stands for the nearest binary64 number, as in Python. *)
#[global] Set Warnings "-inexact-float".

(* ===================================================================== *)
(** * Definitions *)
(* ===================================================================== *)

(** ** Numbers and their text *)

(** [x / 1_000_000] *)
Definition div_1_000_000 (x : float) : float := (x / 1000000)%float.

Definition digit_char (n : N) : ascii := ascii_of_N (48 + n).

Definition digit_val (c : ascii) : option N :=
  let n := N_of_ascii c in
  if ((48 <=? n) && (n <=? 57))%N then Some (n - 48)%N else None.

(** The [w] least significant decimal digits of [n], most significant first. *)
Fixpoint print_fixed (w : nat) (n : N) : string :=
  match w with
  | O => EmptyString
  | S w' => String (digit_char ((n / 10 ^ N.of_nat w') mod 10)%N) (print_fixed w' n)
  end.

Fixpoint num_digits_aux (fuel : nat) (n : N) : nat :=
  match fuel with
  | O => 1
  | S f => if (n <? 10)%N then 1 else S (num_digits_aux f (n / 10)%N)
  end.

(** Number of decimal digits of [n] (1 for 0); the binary size bounds it. *)
Definition num_digits (n : N) : nat := num_digits_aux (N.to_nat (N.size n)) n.

Definition digits_of (n : N) : string := print_fixed (num_digits n) n.

(** *** From decimal text to binary64 *)

(** The float nearest to [a / b] (ties to even), with sign [neg]: the
    quotient is taken with 66 significant bits or more and rounded once. *)
Definition float_of_ratio (neg : bool) (a b : positive) : float :=
  let s := Z.max 0 (66 + Z.log2 (Zpos b) - Z.log2 (Zpos a)) in
  let n := Z.shiftl (Zpos a) s in
  let q := (n / Zpos b)%Z in
  let r := (n mod Zpos b)%Z in
  let loc := if (r =? 0)%Z then loc_Exact
             else loc_Inexact (Z.compare (2 * r) (Zpos b)) in
  SF2Prim (binary_round_aux prec emax neg q (- s) loc).

(** The float nearest to [m * 10 ^ e].  Beyond the range of binary64 the
    result is an infinity or a zero whatever the digits. *)
Definition float_of_decimal (neg : bool) (m : N) (e : Z) : float :=
  match m with
  | N0 => if neg then neg_zero else zero
  | Npos p =>
      if (400 <? e)%Z then (if neg then neg_infinity else infinity)
      else if (e + Z.of_nat (num_digits m) <? -400)%Z
           then (if neg then neg_zero else zero)
           else match e with
                | Zneg k => float_of_ratio neg p (Pos.pow 10 k)
                | Z0 => float_of_ratio neg p 1
                | Zpos k => float_of_ratio neg (p * Pos.pow 10 k) 1
                end
  end.

(** *** [repr]: from binary64 to the shortest decimal text *)

(** [10 ^ k <= a / b] *)
Definition ge_pow10 (a b : positive) (k : Z) : bool :=
  match k with
  | Zneg j => (Zpos b <=? Zpos a * 10 ^ Zpos j)%Z
  | _ => (Zpos b * 10 ^ k <=? Zpos a)%Z
  end.

Fixpoint find_decpt (fuel : nat) (a b : positive) (k : Z) : Z :=
  match fuel with
  | O => k
  | S f =>
      if ge_pow10 a b k then find_decpt f a b (k + 1)
      else if ge_pow10 a b (k - 1) then k
           else find_decpt f a b (k - 1)
  end.

(** The position of the decimal point: the [k] with
    [10 ^ (k - 1) <= a / b < 10 ^ k], found from an estimate. *)
Definition decpt_of (a b : positive) : Z :=
  let guess := ((Z.log2 (Zpos a) - Z.log2 (Zpos b)) * 30103 / 100000)%Z in
  find_decpt 800 a b guess.

(** The [n]-digit decimal nearest to [a / b] that reads back as [x], if
    one of the two neighbours does; the nearer one is tried first. *)
Definition candidate (x : float) (a b : positive) (k : Z) (n : Z) : option N :=
  let '(num, den) := match (n - k)%Z with
                     | Zneg j => (Zpos a, Zpos b * 10 ^ Zpos j)%Z
                     | d => (Zpos a * 10 ^ d, Zpos b)%Z
                     end in
  let lo := Z.to_N (num / den) in
  let r := (num mod den)%Z in
  let reads (c : N) := PrimFloat.Leibniz.eqb (float_of_decimal false c (k - n)) x in
  if (r =? 0)%Z then (if reads lo then Some lo else None)
  else
    let hi := (lo + 1)%N in
    let prefer_hi := match Z.compare (2 * r) den with
                     | Lt => false
                     | Gt => true
                     | Eq => N.odd lo
                     end in
    let first := if prefer_hi then hi else lo in
    let second := if prefer_hi then lo else hi in
    if reads first then Some first
    else if reads second then Some second else None.

(** The least number of digits that reads back as [x], tried from [n]
    digits upwards. *)
Fixpoint shortest (fuel : nat) (x : float) (a b : positive) (k : Z) (n : Z) : N * Z :=
  match fuel with
  | O => (Z.to_N (Zpos a * 10 ^ (n - k) / Zpos b), n)
  | S f => match candidate x a b k n with
           | Some c => (c, n)
           | None => shortest f x a b k (n + 1)
           end
  end.

Fixpoint strip_zeros (fuel : nat) (c : N) (dropped : Z) : N * Z :=
  match fuel with
  | O => (c, dropped)
  | S f => if ((c mod 10 =? 0) && negb (c =? 0))%N
           then strip_zeros f (c / 10)%N (dropped + 1)
           else (c, dropped)
  end.

(** The digits of the positive float [x = m * 2 ^ e] and the position of
    its decimal point, counted from the left of the digits. *)
Definition shortest_digits (x : float) (m : positive) (e : Z) : string * Z :=
  let '(a, b) := match e with
                 | Zneg j => (m, Pos.pow 2 j)
                 | Z0 => (m, 1%positive)
                 | Zpos j => ((m * Pos.pow 2 j)%positive, 1%positive)
                 end in
  let k := decpt_of a b in
  let '(c, n) := shortest 17 x a b k 1 in
  let '(c', dropped) := strip_zeros 20 c 0 in
  let ds := digits_of c' in
  (ds, (k - n + dropped + Z.of_nat (String.length ds))%Z).

Fixpoint zeros (n : nat) : string :=
  match n with
  | O => EmptyString
  | S n' => String "0" (zeros n')
  end.

Fixpoint insert_point (n : nat) (ds : string) : string :=
  match n, ds with
  | O, _ => String "." ds
  | S n', String c ds' => String c (insert_point n' ds')
  | S _, EmptyString => EmptyString
  end.

(** Python's layout of the digits: exponent notation when the decimal
    point lies more than 16 places to the right of the first digit or 4 or
    more zeros to its left, positional notation otherwise. *)
Definition format_digits (ds : string) (decpt : Z) : string :=
  if ((decpt <=? -4) || (16 <? decpt))%Z
  then let ex := (decpt - 1)%Z in
       let mant := match ds with
                   | String c EmptyString => String c EmptyString
                   | String c rest => String c (String "." rest)
                   | EmptyString => EmptyString
                   end in
       let exd := digits_of (Z.abs_N ex) in
       mant +:+ "e" +:+ (if (ex <? 0)%Z then "-" else "+")
            +:+ (if (String.length exd <? 2)%nat then "0" else "") +:+ exd
  else if (decpt <=? 0)%Z
       then "0." +:+ zeros (Z.to_nat (- decpt)) +:+ ds
       else if (Z.of_nat (String.length ds) <=? decpt)%Z
            then ds +:+ zeros (Z.to_nat decpt - String.length ds) +:+ ".0"
            else insert_point (Z.to_nat decpt) ds.

(** [repr(x)] for a float; also [str(x)] and the text [to_csv] writes. *)
Definition repr (x : float) : string :=
  match Prim2SF x with
  | S754_nan => "nan"
  | S754_infinity false => "inf"
  | S754_infinity true => "-inf"
  | S754_zero false => "0.0"
  | S754_zero true => "-0.0"
  | S754_finite s m e =>
      let '(ds, decpt) := shortest_digits (abs x) m e in
      (if s then "-" else "") +:+ format_digits ds decpt
  end.

(** *** The reader's number conversion *)

Definition is_space (c : ascii) : bool :=
  let n := N_of_ascii c in ((n =? 32) || ((9 <=? n) && (n <=? 13)))%N.

Fixpoint skip_spaces (s : string) : string :=
  match s with
  | String c s' => if is_space c then skip_spaces s' else s
  | EmptyString => EmptyString
  end.

(** The leading digits of [s], accumulated onto [acc] and counted. *)
Fixpoint take_digits (s : string) (acc : N) (count : nat) : N * nat * string :=
  match s with
  | String c s' => match digit_val c with
                   | Some v => take_digits s' (10 * acc + v)%N (S count)
                   | None => (acc, count, s)
                   end
  | EmptyString => (acc, count, s)
  end.

Definition take_sign (s : string) : bool * string :=
  match s with
  | String c s' => if Ascii.eqb c "-" then (true, s')
                   else if Ascii.eqb c "+" then (false, s') else (false, s)
  | EmptyString => (false, s)
  end.

(** An exponent part, left unread when no digit follows the letter. *)
Definition take_exponent (s : string) : Z * string :=
  match s with
  | String c s' =>
      if Ascii.eqb c "e" || Ascii.eqb c "E"
      then let '(neg, s1) := take_sign s' in
           let '(n, count, s2) := take_digits s1 0 0 in
           match count with
           | O => (0%Z, s)
           | S _ => ((if neg then - Z.of_N n else Z.of_N n)%Z, s2)
           end
      else (0%Z, s)
  | EmptyString => (0%Z, s)
  end.

(** Blanks, an optional sign, digits with an optional point (one digit at
    least), an optional exponent, blanks; nothing else. *)
Definition parse_decimal (s : string) : option float :=
  let '(neg, s1) := take_sign (skip_spaces s) in
  let '(m1, n1, s2) := take_digits s1 0 0 in
  let '(m, n2, s3) := match s2 with
                      | String c s' =>
                          if Ascii.eqb c "." then take_digits s' m1 0 else (m1, O, s2)
                      | EmptyString => (m1, O, s2)
                      end in
  match (n1 + n2)%nat with
  | O => None
  | S _ =>
      let '(ex, s4) := take_exponent s3 in
      match skip_spaces s4 with
      | EmptyString => Some (float_of_decimal neg m (ex - Z.of_nat n2))
      | String _ _ => None
      end
  end.

Definition lower_ascii (c : ascii) : ascii :=
  let n := N_of_ascii c in
  if ((65 <=? n) && (n <=? 90))%N then ascii_of_N (n + 32) else c.

Fixpoint lower (s : string) : string :=
  match s with
  | EmptyString => EmptyString
  | String c s' => String (lower_ascii c) (lower s')
  end.

(** What [read_csv] takes for a number: a decimal text, or one of the
    words for infinity in any letter case. *)
Definition parse_float (s : string) : option float :=
  match parse_decimal s with
  | Some x => Some x
  | None =>
      let w := lower s in
      if String.eqb w "inf" || String.eqb w "+inf"
         || String.eqb w "infinity" || String.eqb w "+infinity"
      then Some infinity
      else if String.eqb w "-inf" || String.eqb w "-infinity"
           then Some neg_infinity else None
  end.

(** pandas' default [na_values]: the field texts [read_csv] reads as NaN. *)
Definition na_values : list string :=
  [ ""; "#N/A"; "#N/A N/A"; "#NA"; "-1.#IND"; "-1.#QNAN"; "-NaN"; "-nan";
    "1.#IND"; "1.#QNAN"; "<NA>"; "N/A"; "NA"; "NULL"; "NaN"; "None";
    "n/a"; "nan"; "null" ].

Definition is_na (t : string) : bool := existsb (String.eqb t) na_values.

(** The words [read_csv] takes for booleans. *)
Definition parse_bool (t : string) : option bool :=
  if existsb (String.eqb t) [ "True"; "TRUE"; "true" ] then Some true
  else if existsb (String.eqb t) [ "False"; "FALSE"; "false" ] then Some false
  else None.

(** ** Exceptions, outcomes and the two monads *)

Inductive exn :=
| ConfigRetrievalError          (* speedtest.ConfigRetrievalError *)
| FileNotFoundError
| EmptyDataError                (* pandas.errors.EmptyDataError *)
| HTTPError                     (* requests: raise_for_status() *)
| JSONDecodeError               (* requests: response.json() *)
| KeyError (key : string)
| IndexError
| OtherError (name : string).   (* any other exception class *)

Inductive result (A : Type) :=
| Ok (a : A)
| Raise (e : exn).
Arguments Ok {A} a.
Arguments Raise {A} e.

Class Monad (m : Type -> Type) := {
  ret : forall {A}, A -> m A;
  bind : forall {A B}, m A -> (A -> m B) -> m B
}.

Notation "x <- e ;; k" := (bind e (fun x => k))
  (at level 100, e at next level, right associativity).

#[export] Instance result_monad : Monad result := {|
  ret := fun A a => Ok a;
  bind := fun A B r k => match r with Ok a => k a | Raise e => Raise e end
|}.

(** [except FileNotFoundError] and [except speedtest.ConfigRetrievalError]. *)
Definition is_FileNotFoundError (e : exn) : bool :=
  match e with FileNotFoundError => true | _ => false end.

Definition is_ConfigRetrievalError (e : exn) : bool :=
  match e with ConfigRetrievalError => true | _ => false end.

(** [try: body  except E: handler] for code that only reads the world. *)
Definition try_except {A} (body : result A) (handles : exn -> bool)
    (handler : result A) : result A :=
  match body with
  | Ok a => Ok a
  | Raise e => if handles e then handler else Raise e
  end.

(** ** Python values, dicts and strings *)

(** A cell of a record or of a data frame: a [str], a [float], a [bool],
    or NaN. *)
Inductive value :=
| VStr (s : string)
| VNum (x : float)
| VBool (b : bool)
| VNaN.

(** A Python dict with string keys, in insertion order. *)
Definition dict := list (string * value).

Fixpoint dict_lookup (d : dict) (k : string) : option value :=
  match d with
  | [] => None
  | (k', v) :: d' => if String.eqb k k' then Some v else dict_lookup d' k
  end.

(** [d[k]] *)
Definition getitem (d : dict) (k : string) : result value :=
  match dict_lookup d k with
  | Some v => Ok v
  | None => Raise (KeyError k)
  end.

Definition keys (d : dict) : list string := map fst d.
Definition values (d : dict) : list value := map snd d.

(** [l[i]] on a list *)
Definition list_item (l : list string) (i : nat) : result string :=
  match l !! i with
  | Some x => Ok x
  | None => Raise IndexError
  end.

(** [s.split(sep)] for a one-character separator. *)
Fixpoint split (sep : ascii) (s : string) : list string :=
  match s with
  | EmptyString => [EmptyString]
  | String c s' =>
      if Ascii.eqb c sep then EmptyString :: split sep s'
      else match split sep s' with
           | p :: ps => String c p :: ps
           | [] => [String c EmptyString]
           end
  end.

(** [str(v)], as an f-string interpolates a value. *)
Definition str (v : value) : string :=
  match v with
  | VStr s => s
  | VNum x => repr x
  | VBool b => if b then "True" else "False"
  | VNaN => "nan"
  end.

(** ** The outside world *)

Record response := {
  status_code : Z;
  json : option (gmap string string)   (* [None]: the body is not JSON *)
}.

(** The [results.dict()] entries the program reads. *)
Record speedtest_results := {
  download : float;
  upload : float;
  ping : float
}.

Record world := {
  requests_get : string -> result response;   (* by URL *)
  Speedtest : result unit;                    (* [speedtest.Speedtest()] *)
  st_download : result unit;                  (* [st.download()] *)
  st_upload : result unit;                    (* [st.upload()] *)
  st_results : speedtest_results;             (* [st.results.dict()] *)
  now : string   (* [datetime.now().strftime('%Y-%m-%d %H:%M:%S')] *)
}.

(** [response.raise_for_status()] *)
Definition raise_for_status (r : response) : result unit :=
  if ((400 <=? status_code r) && (status_code r <? 600))%Z
  then Raise HTTPError else Ok tt.

(** [response.json()] *)
Definition response_json (r : response) : result (gmap string string) :=
  match json r with
  | Some o => Ok o
  | None => Raise JSONDecodeError
  end.

(** ** The program: identity, classification, measurement *)

Definition get_public_ip (w : world) : result string :=
  response <- requests_get w "https://api.ipify.org?format=json" ;;
  _ <- raise_for_status response ;;
  o <- response_json response ;;
  match o !! "ip" with
  | Some ip => Ok ip
  | None => Raise (KeyError "ip")
  end.

Definition get_isp_info (w : world) (ip : string) : result (gmap string string) :=
  response <- requests_get w ("https://ipinfo.io/" +:+ ip +:+ "/json") ;;
  _ <- raise_for_status response ;;
  response_json response.

Definition known_starlink_asn : string := "AS14593".
Definition known_starlink_org : string := "Space Exploration Technologies Corp".

Definition is_starlink (isp_info : gmap string string) : bool :=
  bool_decide (isp_info !! "org" = Some known_starlink_org)
  || bool_decide (isp_info !! "asn" = Some known_starlink_asn).

(** [isp_info.get(k, dflt)] *)
Definition get_default (isp_info : gmap string string) (k dflt : string) : string :=
  default dflt (isp_info !! k).

(** The body of the [try] in [get_internet_speed]. *)
Definition run_speedtest (w : world) : result dict :=
  _ <- Speedtest w ;;
  _ <- st_download w ;;
  _ <- st_upload w ;;
  let results := st_results w in
  Ok [ ("Download Speed (Mbps)", VNum (div_1_000_000 (download results)));
       ("Upload Speed (Mbps)", VNum (div_1_000_000 (upload results)));
       ("Ping (ms)", VNum (ping results)) ].

Definition speed_error : dict :=
  [ ("Download Speed (Mbps)", VStr "Error");
    ("Upload Speed (Mbps)", VStr "Error");
    ("Ping (ms)", VStr "Error") ].

Definition get_internet_speed (w : world) : result dict :=
  try_except (run_speedtest w) is_ConfigRetrievalError (Ok speed_error).

(** ["Starlink" if is_starlink(isp_info) else isp_info.get('org', 'Unknown')] *)
Definition network_type (isp_info : gmap string string) : string :=
  if is_starlink isp_info then "Starlink" else get_default isp_info "org" "Unknown".

(** [loc[i] if len(loc) > 1 else 'Unknown'] *)
Definition coordinate (loc : list string) (i : nat) : result string :=
  if (1 <? length loc)%nat then list_item loc i else Ok "Unknown".

Definition get_internet_details (w : world) : result dict :=
  ip <- get_public_ip w ;;
  isp_info <- get_isp_info w ip ;;
  let loc := split "," (get_default isp_info "loc" "Unknown,Unknown") in
  speed_info <- get_internet_speed w ;;
  latitude <- coordinate loc 0 ;;
  longitude <- coordinate loc 1 ;;
  download_speed <- getitem speed_info "Download Speed (Mbps)" ;;
  upload_speed <- getitem speed_info "Upload Speed (Mbps)" ;;
  ping_ms <- getitem speed_info "Ping (ms)" ;;
  Ok [ ("Timestamp", VStr (now w));
       ("IP Address", VStr ip);
       ("ISP", VStr (get_default isp_info "org" "Unknown"));
       ("City", VStr (get_default isp_info "city" "Unknown"));
       ("Region", VStr (get_default isp_info "region" "Unknown"));
       ("Country", VStr (get_default isp_info "country" "Unknown"));
       ("Latitude", VStr latitude);
       ("Longitude", VStr longitude);
       ("Network Type", VStr (network_type isp_info));
       ("Download Speed (Mbps)", download_speed);
       ("Upload Speed (Mbps)", upload_speed);
       ("Ping (ms)", ping_ms) ].

(** ** pandas and the CSV file *)

Record DataFrame := {
  columns : list string;
  rows : list (list value)
}.

(** [internet_info.csv]: a header row and data rows of field texts. *)
Record csv_file := {
  header : list string;
  lines : list (list string)
}.

(** The file may not exist. *)
Definition filesystem := option csv_file.

(** Code that reads or writes the file: state passing with exceptions. *)
Definition io (A : Type) : Type := filesystem -> result A * filesystem.

#[export] Instance io_monad : Monad io := {|
  ret := fun A a fs => (Ok a, fs);
  bind := fun A B m k fs =>
    match m fs with
    | (Ok a, fs') => k a fs'
    | (Raise e, fs') => (Raise e, fs')
    end
|}.

(** Run world-only code inside a cycle. *)
Definition lift {A} (r : result A) : io A := fun fs => (r, fs).

Definition try_except_io {A} (body : io A) (handles : exn -> bool)
    (handler : io A) : io A :=
  fun fs =>
    match body fs with
    | (Ok a, fs') => (Ok a, fs')
    | (Raise e, fs') => if handles e then handler fs' else (Raise e, fs')
    end.

Definition mem (c : string) (l : list string) : bool := existsb (String.eqb c) l.

(** Keys of a list of records, in order of first appearance. *)
Definition union_keys (records : list dict) : list string :=
  fold_left (fun acc r => acc ++ List.filter (fun c => negb (mem c acc)) (keys r))
            records [].

Definition cell_or_nan (d : dict) (k : string) : value :=
  match dict_lookup d k with
  | Some v => v
  | None => VNaN
  end.

(** [pd.DataFrame(records)] and [pd.DataFrame(records, columns=cols)]:
    one row per record, a missing key gives NaN. *)
Definition pd_DataFrame (records : list dict) (cols : option (list string)) : DataFrame :=
  let cs := match cols with Some c => c | None => union_keys records end in
  {| columns := cs; rows := map (fun r => map (cell_or_nan r) cs) records |}.

Fixpoint index_of (c : string) (l : list string) : option nat :=
  match l with
  | [] => None
  | c' :: l' => if String.eqb c c' then Some O else option_map S (index_of c l')
  end.

(** A row laid out under [old] columns, laid out again under [new] ones. *)
Definition reindex (old new : list string) (row : list value) : list value :=
  map (fun c => match index_of c old with
                | Some j => nth j row VNaN
                | None => VNaN
                end) new.

(** [pd.concat([df1, df2], ignore_index=True)]: the columns of [df1], then
    those of [df2] not among them; the rows of [df1], then those of [df2]. *)
Definition pd_concat (df1 df2 : DataFrame) : DataFrame :=
  let cs := columns df1
            ++ List.filter (fun c => negb (mem c (columns df1))) (columns df2) in
  {| columns := cs;
     rows := map (reindex (columns df1) cs) (rows df1)
             ++ map (reindex (columns df2) cs) (rows df2) |}.

(** The text [to_csv] writes for a cell; NaN, as a missing cell or as a
    float, is written as the empty field. *)
Definition to_text (v : value) : string :=
  match v with
  | VStr s => s
  | VNum x => let t := repr x in if String.eqb t "nan" then "" else t
  | VBool b => if b then "True" else "False"
  | VNaN => ""
  end.

(** The file a frame is written as: the column names, then one line of
    field texts per row (no index column). *)
Definition render (df : DataFrame) : csv_file :=
  {| header := columns df; lines := map (map to_text) (rows df) |}.

(** [df.to_csv('internet_info.csv', index=False)]: the file is replaced. *)
Definition to_csv (df : DataFrame) : io unit :=
  fun _ => (Ok tt, Some (render df)).

Definition column_texts (j : nat) (ls : list (list string)) : list string :=
  map (fun l => nth j l "") ls.

(** What [read_csv] makes of a column: float64, bool, or object. *)
Inductive column_type := Numeric | Boolean | Text.

(** A column is numeric when every field that is not missing reads as a
    number; failing that, boolean when every such field is a boolean word;
    failing that, it keeps its texts. *)
Definition infer_type (ts : list string) : column_type :=
  if forallb (fun t => is_na t || match parse_float t with Some _ => true | None => false end) ts
  then Numeric
  else if forallb (fun t => is_na t || match parse_bool t with Some _ => true | None => false end) ts
       then Boolean
       else Text.

Definition read_cell (ty : column_type) (t : string) : value :=
  if is_na t then VNaN
  else match ty with
       | Numeric => match parse_float t with Some x => VNum x | None => VStr t end
       | Boolean => match parse_bool t with Some b => VBool b | None => VStr t end
       | Text => VStr t
       end.

Definition read_line (ncols : nat) (ls : list (list string)) (l : list string) : list value :=
  map (fun j => read_cell (infer_type (column_texts j ls)) (nth j l ""))
      (seq 0 ncols).

Definition parse_table (f : csv_file) : DataFrame :=
  {| columns := header f;
     rows := map (read_line (length (header f)) (lines f)) (lines f) |}.

(** [pd.read_csv('internet_info.csv')] *)
Definition read_csv : io DataFrame :=
  fun fs =>
    match fs with
    | None => (Raise FileNotFoundError, fs)
    | Some f =>
        match header f with
        | [] => (Raise EmptyDataError, fs)
        | _ => (Ok (parse_table f), fs)
        end
    end.

Definition fieldnames : list string :=
  [ "Timestamp"; "IP Address"; "ISP"; "City"; "Region"; "Country";
    "Latitude"; "Longitude"; "Network Type"; "Download Speed (Mbps)";
    "Upload Speed (Mbps)"; "Ping (ms)" ].

Definition save_to_csv (details : dict) : io unit :=
  df <- try_except_io
          (df <- read_csv ;;
           let new_row := pd_DataFrame [details] None in
           ret (pd_concat df new_row))
          is_FileNotFoundError
          (ret (pd_DataFrame [details] (Some fieldnames))) ;;
  to_csv df.

Definition load_data : io DataFrame :=
  try_except_io read_csv is_FileNotFoundError
    (ret (pd_DataFrame []
            (Some [ "Timestamp"; "IP Address"; "ISP"; "City"; "Region"; "Country";
                    "Latitude"; "Longitude"; "Network Type"; "Download Speed (Mbps)";
                    "Upload Speed (Mbps)"; "Ping (ms)" ]))).

(** ** The cycle *)

(** [html.P(f"{label}: {details[label]}")], kept as its text. *)
Definition html_P (details : dict) (label : string) : result string :=
  v <- getitem details label ;;
  Ok (label +:+ ": " +:+ str v).

Fixpoint map_result {A B} (f : A -> result B) (l : list A) : result (list B) :=
  match l with
  | [] => Ok []
  | a :: l' => b <- f a ;; bs <- map_result f l' ;; Ok (b :: bs)
  end.

(** The column of a frame under a given name. *)
Definition column (df : DataFrame) (c : string) : result (list value) :=
  match index_of c (columns df) with
  | Some j => Ok (map (fun r => nth j r VNaN) (rows df))
  | None => Raise (OtherError "ValueError")
  end.

(** What [px.line(df, x=..., y=[...])] draws: the x column and one series
    per y column, in row order. *)
Record figure := {
  fig_x : list value;
  fig_y : list (string * list value)
}.

Definition px_line (df : DataFrame) (x : string) (y : list string) : result figure :=
  xs <- column df x ;;
  ys <- map_result (fun c => vs <- column df c ;; Ok (c, vs)) y ;;
  Ok {| fig_x := xs; fig_y := ys |}.

Definition update_dashboard (w : world) : io (list string * figure) :=
  details <- lift (get_internet_details w) ;;
  _ <- save_to_csv details ;;
  df <- load_data ;;
  details_display <- lift (map_result (html_P details) fieldnames) ;;
  speed_fig <- lift (px_line df "Timestamp"
                       [ "Download Speed (Mbps)"; "Upload Speed (Mbps)"; "Ping (ms)" ]) ;;
  ret (details_display, speed_fig).

(** ** Notions used to state the properties *)

(** The numeric reading of a cell: a number, or a text that reads as one. *)
Definition as_num (v : value) : option float :=
  match v with
  | VNum x => Some x
  | VStr s => parse_float s
  | VBool _ => None
  | VNaN => None
  end.

(** Equality of field values, a number and a text that reads as that
    number counting as equal. *)
Definition veq (v w : value) : Prop :=
  match as_num v, as_num w with
  | Some a, Some b => a = b
  | None, None => v = w
  | _, _ => False
  end.

Definition row_eq (r1 r2 : list value) : Prop := Forall2 veq r1 r2.
Definition rows_eq (t1 t2 : list (list value)) : Prop := Forall2 row_eq t1 t2.

(** Every row has one cell per column. *)
Definition rectangular (df : DataFrame) : Prop :=
  Forall (fun r => length r = length (columns df)) (rows df).






(** The stores the program itself leaves behind: no file, or a file under
    the canonical header. *)
Definition canonical_store (fs : filesystem) : Prop :=
  match fs with
  | None => True
  | Some f => header f = fieldnames
  end.




(** A rate in bits per second, as megabits per second. *)
Definition megabits_per_second_of_bit_rate (bits_per_second : float) : float :=
  (bits_per_second / 1000000)%float.

(** A rate in bytes per second, as megabits per second: eight bits to the
    byte. *)
Definition megabits_per_second_of_byte_rate (bytes_per_second : float) : float :=
  (bytes_per_second * 8 / 1000000)%float.

(** "The measure call normalizes the raw byte-rate values into
    megabits-per-second and reports latency unchanged", for one world. *)
Definition normalizes_byte_rates (w : world) : Prop :=
  get_internet_speed w
  = Ok [ ("Download Speed (Mbps)",
          VNum (megabits_per_second_of_byte_rate (download (st_results w))));
         ("Upload Speed (Mbps)",
          VNum (megabits_per_second_of_byte_rate (upload (st_results w))));
         ("Ping (ms)", VNum (ping (st_results w))) ].


(** Latitude and longitude as the record carries them, from the parts of
    the location string. *)
Definition first_two (parts : list string) : string * string :=
  match parts with
  | a :: b :: _ => (a, b)
  | _ => ("Unknown", "Unknown")
  end.

Fixpoint count_char (c : ascii) (s : string) : nat :=
  match s with
  | EmptyString => O
  | String c' s' => (if Ascii.eqb c' c then 1 else 0) + count_char c s'
  end.

(** "Both coordinates are Unknown whenever the string does not split into
    exactly two parts", for one location string. *)
Definition unknown_unless_two_parts (loc : string) : Prop :=
  length (split "," loc) <> 2 ->
  coordinate (split "," loc) 0 = Ok "Unknown"
  /\ coordinate (split "," loc) 1 = Ok "Unknown".

(** A text that is not [known] but is [known] up to letter case, or [known]
    with extra text around it. *)
Definition near_miss (s known : string) : Prop :=
  (s <> known /\ lower s = lower known)
  \/ (exists pre post, (pre <> "" \/ post <> "") /\ s = pre +:+ known +:+ post).

(** ** Sample worlds *)

(** Both lookup services answering with status 200. *)
Definition serve (ip : string) (isp_info : gmap string string) (url : string)
  : result response :=
  if String.eqb url "https://api.ipify.org?format=json"
  then Ok {| status_code := 200; json := Some {[ "ip" := ip ]} |}
  else if String.eqb url ("https://ipinfo.io/" +:+ ip +:+ "/json")
       then Ok {| status_code := 200; json := Some isp_info |}
       else Raise (OtherError "ConnectionError").

Definition sample_results : speedtest_results :=
  {| download := 85123456; upload := 12500000; ping := 23.456 |}.

(** Everything works. *)
Definition world_ok (ip : string) (isp_info : gmap string string) : world :=
  {| requests_get := serve ip isp_info;
     Speedtest := Ok tt; st_download := Ok tt; st_upload := Ok tt;
     st_results := sample_results;
     now := "2024-05-01 12:00:00" |}.

(** The speed test library raises [e] at its first step ([at_step = 0]),
    in [download()] (1) or in [upload()] (2). *)
Definition world_speed_fails (ip : string) (isp_info : gmap string string)
    (at_step : nat) (e : exn) : world :=
  {| requests_get := serve ip isp_info;
     Speedtest := match at_step with 0 => Raise e | _ => Ok tt end;
     st_download := match at_step with 1 => Raise e | _ => Ok tt end;
     st_upload := match at_step with 2 => Raise e | _ => Ok tt end;
     st_results := sample_results;
     now := "2024-05-01 12:00:00" |}.

(** The public-IP service is unreachable. *)
Definition world_no_ip : world :=
  {| requests_get := fun _ => Raise (OtherError "ConnectionError");
     Speedtest := Ok tt; st_download := Ok tt; st_upload := Ok tt;
     st_results := sample_results;
     now := "2024-05-01 12:00:00" |}.

(** The ISP service answers 429. *)
Definition world_isp_429 : world :=
  {| requests_get := fun url =>
       if String.eqb url "https://api.ipify.org?format=json"
       then Ok {| status_code := 200; json := Some {[ "ip" := "203.0.113.7" ]} |}
       else Ok {| status_code := 429; json := None |};
     Speedtest := Ok tt; st_download := Ok tt; st_upload := Ok tt;
     st_results := sample_results;
     now := "2024-05-01 12:00:00" |}.

Definition plano : gmap string string :=
  {[ "org" := "Space Exploration Technologies Corp"; "asn" := "AS14593";
     "loc" := "33.1,-96.8"; "city" := "Plano" ]}.

Definition denver : gmap string string :=
  {[ "org" := "Comcast"; "asn" := "AS7922"; "loc" := "bad-loc"; "city" := "Denver" ]}.

(** An address in Namibia, whose country code is "NA". *)
Definition windhoek : gmap string string :=
  {[ "org" := "AS36996 Telecom Namibia"; "loc" := "-22.56,17.08";
     "city" := "Windhoek"; "region" := "Khomas"; "country" := "NA" ]}.

Definition one_row_file : csv_file :=
  {| header := fieldnames;
     lines := [ [ "2024-05-01 11:59:00"; "203.0.113.7"; "Comcast"; "Denver";
                  "Unknown"; "Unknown"; "Unknown"; "Unknown"; "Comcast";
                  "85.1"; "12.5"; "23.4" ] ] |}.

(** The records the builder returns in three of the sample worlds. *)
Definition plano_details : dict :=
  [ ("Timestamp", VStr "2024-05-01 12:00:00");
    ("IP Address", VStr "98.97.0.10");
    ("ISP", VStr "Space Exploration Technologies Corp");
    ("City", VStr "Plano");
    ("Region", VStr "Unknown");
    ("Country", VStr "Unknown");
    ("Latitude", VStr "33.1");
    ("Longitude", VStr "-96.8");
    ("Network Type", VStr "Starlink");
    ("Download Speed (Mbps)", VNum 85.123456);
    ("Upload Speed (Mbps)", VNum 12.5);
    ("Ping (ms)", VNum 23.456) ].

Definition denver_details : dict :=
  [ ("Timestamp", VStr "2024-05-01 12:00:00");
    ("IP Address", VStr "203.0.113.7");
    ("ISP", VStr "Comcast");
    ("City", VStr "Denver");
    ("Region", VStr "Unknown");
    ("Country", VStr "Unknown");
    ("Latitude", VStr "Unknown");
    ("Longitude", VStr "Unknown");
    ("Network Type", VStr "Comcast");
    ("Download Speed (Mbps)", VStr "Error");
    ("Upload Speed (Mbps)", VStr "Error");
    ("Ping (ms)", VStr "Error") ].

Definition windhoek_details : dict :=
  [ ("Timestamp", VStr "2024-05-01 12:00:00");
    ("IP Address", VStr "41.182.0.1");
    ("ISP", VStr "AS36996 Telecom Namibia");
    ("City", VStr "Windhoek");
    ("Region", VStr "Khomas");
    ("Country", VStr "NA");
    ("Latitude", VStr "-22.56");
    ("Longitude", VStr "17.08");
    ("Network Type", VStr "AS36996 Telecom Namibia");
    ("Download Speed (Mbps)", VNum 85.123456);
    ("Upload Speed (Mbps)", VNum 12.5);
    ("Ping (ms)", VNum 23.456) ].



(** ** Notions used to state further properties *)

(** The first step of the speed test that raises, if any:
    [speedtest.Speedtest()], then [st.download()], then [st.upload()]. *)
Definition first_failure (w : world) : option exn :=
  match Speedtest w with
  | Raise e => Some e
  | Ok _ =>
      match st_download w with
      | Raise e => Some e
      | Ok _ =>
          match st_upload w with
          | Raise e => Some e
          | Ok _ => None
          end
      end
  end.

(** The parts put together again with the separator between them. *)
Fixpoint join (sep : ascii) (parts : list string) : string :=
  match parts with
  | [] => EmptyString
  | [p] => p
  | p :: ps => p +:+ String sep (join sep ps)
  end.

(** One displayed line: [f"{label}: {value}"]. *)
Definition show_field (kv : string * value) : string :=
  fst kv +:+ ": " +:+ str (snd kv).

Definition line_count (fs : filesystem) : nat :=
  match fs with
  | Some f => length (lines f)
  | None => 0
  end.

Definition is_Ok {A} (r : result A) : bool :=
  match r with
  | Ok _ => true
  | Raise _ => false
  end.

(** The file after the callback has fired once per world of the list, an
    exception of one firing ending that firing only. *)
Fixpoint run_triggers (ws : list world) (fs : filesystem) : filesystem :=
  match ws with
  | [] => fs
  | w :: ws' => run_triggers ws' (snd (update_dashboard w fs))
  end.

(** A file of zero bytes: not even a header. *)
Definition empty_file : csv_file := {| header := []; lines := [] |}.

(** A record with a key outside the twelve. *)
Definition denver_details_extra : dict :=
  denver_details ++ [ ("Postal", VStr "80202") ].

(* ===================================================================== *)
(** * Properties *)
(* ===================================================================== *)

(** ** Numbers and their text *)

Lemma string_app_cons (c : ascii) (a b : string) :
  String c a +:+ b = String c (a +:+ b).
Proof. reflexivity. Qed.








(** ** Classification *)

Lemma is_starlink_true_iff (isp_info : gmap string string) :
  is_starlink isp_info = true
  <-> (isp_info !! "org" = Some known_starlink_org
       \/ isp_info !! "asn" = Some known_starlink_asn).
Proof.
  unfold is_starlink. rewrite orb_true_iff, !bool_decide_eq_true. reflexivity.
Qed.

Lemma is_starlink_false_iff (isp_info : gmap string string) :
  is_starlink isp_info = false
  <-> (isp_info !! "org" <> Some known_starlink_org
       /\ isp_info !! "asn" <> Some known_starlink_asn).
Proof.
  unfold is_starlink. rewrite orb_false_iff, !bool_decide_eq_false. reflexivity.
Qed.

Lemma length_string_app (a b : string) :
  String.length (a +:+ b) = String.length a + String.length b.
Proof.
  induction a as [|c a IH]; [reflexivity|].
  rewrite string_app_cons. simpl. now rewrite IH.
Qed.

Lemma near_miss_neq (s known : string) : near_miss s known -> s <> known.
Proof.
  intros [[H _]|(pre & post & Hne & ->)]; [exact H|].
  intros E. apply (f_equal String.length) in E.
  rewrite !length_string_app in E.
  assert (String.length pre = 0 /\ String.length post = 0) as [Hp Hq] by lia.
  destruct pre, post; simpl in *; try discriminate.
  destruct Hne as [Hne|Hne]; now apply Hne.
Qed.

(** ** The location string *)

Lemma split_not_nil (sep : ascii) (s : string) : split sep s <> [].
Proof.
  induction s as [|c s IH]; simpl; [discriminate|].
  destruct (Ascii.eqb c sep); [discriminate|].
  destruct (split sep s); [contradiction | discriminate].
Qed.

(** One part more than there are separators. *)
Lemma length_split (sep : ascii) (s : string) :
  length (split sep s) = S (count_char sep s).
Proof.
  induction s as [|c s IH]; [reflexivity|]. simpl.
  destruct (Ascii.eqb c sep); simpl; [now rewrite IH|].
  pose proof (split_not_nil sep s) as Hne.
  destruct (split sep s); [contradiction|]. simpl in *. exact IH.
Qed.

Lemma split_no_sep (sep : ascii) (s : string) :
  count_char sep s = 0 -> split sep s = [s].
Proof.
  induction s as [|c s IH]; [reflexivity|]. simpl.
  destruct (Ascii.eqb c sep); [discriminate|]. simpl.
  intros H. now rewrite (IH H).
Qed.

Lemma coordinate_first_two (parts : list string) :
  coordinate parts 0 = Ok (fst (first_two parts))
  /\ coordinate parts 1 = Ok (snd (first_two parts)).
Proof. destruct parts as [|a [|b l]]; split; reflexivity. Qed.

(** ** Measurement *)

Lemma run_speedtest_ok (w : world) :
  Speedtest w = Ok tt -> st_download w = Ok tt -> st_upload w = Ok tt ->
  run_speedtest w
  = Ok [ ("Download Speed (Mbps)", VNum (div_1_000_000 (download (st_results w))));
         ("Upload Speed (Mbps)", VNum (div_1_000_000 (upload (st_results w))));
         ("Ping (ms)", VNum (ping (st_results w))) ].
Proof. intros H1 H2 H3. unfold run_speedtest. now rewrite H1, H2, H3. Qed.

Lemma get_internet_speed_cases (w : world) :
  (exists sp, run_speedtest w = Ok sp /\ get_internet_speed w = Ok sp)
  \/ (run_speedtest w = Raise ConfigRetrievalError
      /\ get_internet_speed w = Ok speed_error)
  \/ (exists e, run_speedtest w = Raise e /\ is_ConfigRetrievalError e = false
                /\ get_internet_speed w = Raise e).
Proof.
  unfold get_internet_speed. destruct (run_speedtest w) as [sp|e].
  - left. eauto.
  - right. destruct e; simpl; eauto 6.
Qed.

Lemma run_speedtest_shape (w : world) (sp : dict) :
  run_speedtest w = Ok sp ->
  exists a b c, sp = [ ("Download Speed (Mbps)", VNum a);
                       ("Upload Speed (Mbps)", VNum b);
                       ("Ping (ms)", VNum c) ].
Proof.
  unfold run_speedtest.
  destruct (Speedtest w); [|discriminate].
  destruct (st_download w); [|discriminate].
  destruct (st_upload w); [|discriminate].
  cbn. intros [= <-]. eauto.
Qed.

(** The measurement comes back as three numbers or as three "Error". *)
Lemma get_internet_speed_shape (w : world) (sp : dict) :
  get_internet_speed w = Ok sp ->
  (exists a b c, sp = [ ("Download Speed (Mbps)", VNum a);
                        ("Upload Speed (Mbps)", VNum b);
                        ("Ping (ms)", VNum c) ])
  \/ sp = speed_error.
Proof.
  intros H.
  destruct (get_internet_speed_cases w) as [(sp' & Hr & Hs)|[[_ Hs]|(e & _ & _ & Hs)]];
    rewrite Hs in H; inversion H; subst.
  - left. eapply run_speedtest_shape; eauto.
  - right. reflexivity.
Qed.

(** ** The builder and the cycle *)

(** The record, once both lookups and the measurement have returned. *)
Lemma get_internet_details_ok (w : world) (ip : string)
    (isp_info : gmap string string) (dl ul pg : value) :
  get_public_ip w = Ok ip ->
  get_isp_info w ip = Ok isp_info ->
  get_internet_speed w
  = Ok [ ("Download Speed (Mbps)", dl); ("Upload Speed (Mbps)", ul); ("Ping (ms)", pg) ] ->
  let loc := split "," (get_default isp_info "loc" "Unknown,Unknown") in
  get_internet_details w
  = Ok [ ("Timestamp", VStr (now w));
         ("IP Address", VStr ip);
         ("ISP", VStr (get_default isp_info "org" "Unknown"));
         ("City", VStr (get_default isp_info "city" "Unknown"));
         ("Region", VStr (get_default isp_info "region" "Unknown"));
         ("Country", VStr (get_default isp_info "country" "Unknown"));
         ("Latitude", VStr (fst (first_two loc)));
         ("Longitude", VStr (snd (first_two loc)));
         ("Network Type", VStr (network_type isp_info));
         ("Download Speed (Mbps)", dl);
         ("Upload Speed (Mbps)", ul);
         ("Ping (ms)", pg) ].
Proof.
  intros Hip Hisp Hsp loc. unfold get_internet_details.
  rewrite Hip. cbn [bind result_monad]. rewrite Hisp, Hsp.
  fold loc. destruct (coordinate_first_two loc) as [-> ->]. reflexivity.
Qed.

Lemma get_internet_details_inv (w : world) (d : dict) :
  get_internet_details w = Ok d ->
  exists ip isp_info sp,
    get_public_ip w = Ok ip /\ get_isp_info w ip = Ok isp_info
    /\ get_internet_speed w = Ok sp.
Proof.
  unfold get_internet_details. intros H.
  destruct (get_public_ip w) as [ip|]; [|discriminate]. cbn [bind result_monad] in H.
  destruct (get_isp_info w ip) as [isp_info|] eqn:Hisp; [|discriminate].
  destruct (get_internet_speed w) as [sp|]; [|discriminate].
  exists ip, isp_info, sp. repeat split. exact Hisp.
Qed.

(** Every record the builder returns has this shape. *)
Lemma get_internet_details_built (w : world) (d : dict) :
  get_internet_details w = Ok d ->
  exists ip isp_info dl ul pg,
    get_public_ip w = Ok ip /\ get_isp_info w ip = Ok isp_info
    /\ get_internet_speed w
       = Ok [ ("Download Speed (Mbps)", dl); ("Upload Speed (Mbps)", ul);
              ("Ping (ms)", pg) ]
    /\ let loc := split "," (get_default isp_info "loc" "Unknown,Unknown") in
       d = [ ("Timestamp", VStr (now w));
             ("IP Address", VStr ip);
             ("ISP", VStr (get_default isp_info "org" "Unknown"));
             ("City", VStr (get_default isp_info "city" "Unknown"));
             ("Region", VStr (get_default isp_info "region" "Unknown"));
             ("Country", VStr (get_default isp_info "country" "Unknown"));
             ("Latitude", VStr (fst (first_two loc)));
             ("Longitude", VStr (snd (first_two loc)));
             ("Network Type", VStr (network_type isp_info));
             ("Download Speed (Mbps)", dl);
             ("Upload Speed (Mbps)", ul);
             ("Ping (ms)", pg) ].
Proof.
  intros H.
  destruct (get_internet_details_inv w d H) as (ip & isp_info & sp & Hip & Hisp & Hsp).
  assert (Hshape : exists dl ul pg,
             sp = [ ("Download Speed (Mbps)", dl); ("Upload Speed (Mbps)", ul);
                    ("Ping (ms)", pg) ]).
  { destruct (get_internet_speed_shape w sp Hsp) as [(a & b & c & ->)| ->];
      unfold speed_error; eauto. }
  destruct Hshape as (dl & ul & pg & ->).
  exists ip, isp_info, dl, ul, pg.
  rewrite (get_internet_details_ok w ip isp_info dl ul pg Hip Hisp Hsp) in H.
  injection H as <-. repeat split; assumption.
Qed.

(** Every record the builder returns has the twelve canonical keys, in
    order. *)
Lemma get_internet_details_keys (w : world) (d : dict) :
  get_internet_details w = Ok d -> keys d = fieldnames.
Proof.
  intros H.
  destruct (get_internet_details_built w d H)
    as (ip & isp_info & dl & ul & pg & _ & _ & _ & ->).
  reflexivity.
Qed.

(** The two scenarios of the specification, and an address in Namibia. *)
Example plano_record :
  get_internet_details (world_ok "98.97.0.10" plano) = Ok plano_details.
Proof. vm_compute. reflexivity. Qed.

Example denver_record :
  get_internet_details (world_speed_fails "203.0.113.7" denver 0 ConfigRetrievalError)
  = Ok denver_details.
Proof. vm_compute. reflexivity. Qed.

Example windhoek_record :
  get_internet_details (world_ok "41.182.0.1" windhoek) = Ok windhoek_details.
Proof. vm_compute. reflexivity. Qed.

(** An exception in either lookup or in the measurement leaves
    [get_internet_details] with that exception. *)
Lemma get_internet_details_raises (w : world) (e : exn) :
  get_public_ip w = Raise e
  \/ (exists ip, get_public_ip w = Ok ip /\ get_isp_info w ip = Raise e)
  \/ (exists ip isp_info, get_public_ip w = Ok ip /\ get_isp_info w ip = Ok isp_info
                          /\ get_internet_speed w = Raise e) ->
  get_internet_details w = Raise e.
Proof.
  unfold get_internet_details.
  intros [H|[(ip & H1 & H2)|(ip & isp_info & H1 & H2 & H3)]].
  - now rewrite H.
  - rewrite H1. cbn [bind result_monad]. now rewrite H2.
  - rewrite H1. cbn [bind result_monad]. now rewrite H2, H3.
Qed.

(** A cycle whose record cannot be built ends with the exception and never
    reaches the file. *)
Lemma update_dashboard_aborts (w : world) (e : exn) (fs : filesystem) :
  get_internet_details w = Raise e -> update_dashboard w fs = (Raise e, fs).
Proof.
  intros H. unfold update_dashboard, lift. cbn [bind io_monad]. now rewrite H.
Qed.

(** ** Equal field values *)

Lemma veq_refl (v : value) : veq v v.
Proof. unfold veq. destruct (as_num v); reflexivity. Qed.

Lemma veq_sym (v w : value) : veq v w -> veq w v.
Proof. unfold veq. destruct (as_num v), (as_num w); try tauto; congruence. Qed.

Lemma veq_trans (u v w : value) : veq u v -> veq v w -> veq u w.
Proof.
  unfold veq. destruct (as_num u), (as_num v), (as_num w); try tauto; congruence.
Qed.

#[export] Instance veq_equivalence : Equivalence veq.
Proof.
  split; [exact veq_refl | exact veq_sym | exact veq_trans].
Qed.

#[export] Instance row_eq_equivalence : Equivalence row_eq.
Proof. change (Equivalence (Forall2 veq)). apply _. Qed.

#[export] Instance rows_eq_equivalence : Equivalence rows_eq.
Proof. change (Equivalence (Forall2 row_eq)). apply _. Qed.


(** ** Writing and reading a frame *)






Lemma length_read_line (n : nat) (ls : list (list string)) (l : list string) :
  length (read_line n ls l) = n.
Proof. unfold read_line. now rewrite length_map, length_seq. Qed.




Lemma parse_table_rectangular (f : csv_file) : rectangular (parse_table f).
Proof.
  unfold rectangular, parse_table. cbn [rows columns].
  apply List.Forall_forall. intros r Hr.
  apply in_map_iff in Hr as (l & <- & _). apply length_read_line.
Qed.



(** ** Frames of records *)

Lemma dict_lookup_head (k : string) (v : value) (d : dict) :
  dict_lookup ((k, v) :: d) k = Some v.
Proof. simpl. now rewrite String.eqb_refl. Qed.

(** The cells of a record under its own keys are its values. *)
Lemma cells_under_own_keys (d : dict) :
  List.NoDup (keys d) -> map (cell_or_nan d) (keys d) = values d.
Proof.
  unfold keys, values. induction d as [|[k v] d IH]; [reflexivity|].
  cbn [map fst snd]. intros Hnd. inversion Hnd as [|? ? Hnotin Hnd']; subst.
  f_equal.
  - unfold cell_or_nan. now rewrite dict_lookup_head.
  - rewrite <- (IH Hnd'). apply map_ext_in. intros k' Hin.
    unfold cell_or_nan. simpl.
    destruct (String.eqb_spec k' k) as [->|Hne]; [contradiction|reflexivity].
Qed.

Lemma reindex_same (cols : list string) (row : list value) :
  List.NoDup cols -> length row = length cols -> reindex cols cols row = row.
Proof.
  unfold reindex. intros Hnd. revert row.
  induction Hnd as [|c cols Hnotin Hnd IH]; intros [|x row] Hlen;
    try discriminate Hlen; [reflexivity|].
  cbn [map index_of]. rewrite String.eqb_refl. f_equal.
  transitivity (map (fun c' => match index_of c' cols with
                               | Some j => nth j row VNaN
                               | None => VNaN
                               end) cols);
    [|apply IH; simpl in Hlen; lia].
  apply map_ext_in. intros c' Hin.
  destruct (String.eqb_spec c' c) as [->|Hne]; [contradiction|].
  now destruct (index_of c' cols).
Qed.

Lemma filter_known (l : list string) :
  List.filter (fun c => negb (mem c l)) l = [].
Proof.
  assert (H : forall l', incl l' l -> List.filter (fun c => negb (mem c l)) l' = []).
  { induction l' as [|c l' IH]; [reflexivity|]. intros Hincl. simpl.
    assert (Hm : mem c l = true).
    { unfold mem. apply existsb_exists. exists c. split; [apply Hincl; now left|].
      apply String.eqb_refl. }
    rewrite Hm. simpl. apply IH. intros x Hx. apply Hincl. now right. }
  apply H, incl_refl.
Qed.

Lemma NoDup_fieldnames : List.NoDup fieldnames.
Proof.
  unfold fieldnames.
  repeat (constructor; [simpl; intuition discriminate|]). constructor.
Qed.

Lemma union_keys_one (d : dict) : union_keys [d] = keys d.
Proof.
  unfold union_keys. simpl. induction (keys d) as [|k l IH]; simpl; congruence.
Qed.

Lemma pd_DataFrame_one (d : dict) (cols : option (list string)) :
  keys d = fieldnames -> (cols = None \/ cols = Some fieldnames) ->
  pd_DataFrame [d] cols = {| columns := fieldnames; rows := [values d] |}.
Proof.
  intros Hk Hc.
  assert (Hcs : match cols with Some c => c | None => union_keys [d] end = keys d).
  { destruct Hc as [-> | ->]; [apply union_keys_one | now symmetry]. }
  unfold pd_DataFrame. rewrite Hcs. cbn [map].
  rewrite cells_under_own_keys by (rewrite Hk; apply NoDup_fieldnames).
  now rewrite Hk.
Qed.

Lemma map_reindex_same (cols : list string) (t : list (list value)) :
  List.NoDup cols -> Forall (fun r => length r = length cols) t ->
  map (reindex cols cols) t = t.
Proof.
  intros Hnd H. induction H as [|r t Hr H IH]; [reflexivity|].
  simpl. now rewrite reindex_same, IH.
Qed.

(** Frames over the same columns are stacked row-wise. *)
Lemma pd_concat_same_columns (df1 df2 : DataFrame) :
  columns df2 = columns df1 -> List.NoDup (columns df1) ->
  rectangular df1 -> rectangular df2 ->
  pd_concat df1 df2 = {| columns := columns df1; rows := rows df1 ++ rows df2 |}.
Proof.
  intros Hc Hnd H1 H2. unfold pd_concat, rectangular in *. rewrite Hc in *.
  rewrite filter_known, app_nil_r.
  now rewrite !map_reindex_same.
Qed.


(** ** The store *)

Lemma load_data_canonical (fs : filesystem) :
  canonical_store fs ->
  exists before,
    load_data fs = (Ok before, fs) /\ columns before = fieldnames
    /\ rectangular before.
Proof.
  destruct fs as [f|]; simpl; intros H.
  - exists (parse_table f). unfold load_data, try_except_io, read_csv.
    rewrite H. split; [reflexivity|]. split; [exact H|].
    apply parse_table_rectangular.
  - eexists. split; [reflexivity|]. split; [reflexivity|]. constructor.
Qed.



(** What one append leaves in the file. *)
Lemma save_to_csv_canonical (fs : filesystem) (d : dict) (before : DataFrame) :
  canonical_store fs -> load_data fs = (Ok before, fs) -> keys d = fieldnames ->
  save_to_csv d fs
  = (Ok tt, Some (render {| columns := fieldnames;
                            rows := rows before ++ [values d] |})).
Proof.
  intros Hcan Hload Hk. destruct fs as [f|]; simpl in Hcan.
  - unfold load_data, try_except_io, read_csv in Hload. rewrite Hcan in Hload.
    cbn in Hload. injection Hload as <-.
    unfold save_to_csv, try_except_io, read_csv. cbn [bind io_monad ret].
    rewrite Hcan. cbn [fieldnames].
    rewrite (pd_DataFrame_one d None Hk (or_introl eq_refl)).
    rewrite pd_concat_same_columns.
    + unfold to_csv. cbn [columns parse_table rows]. now rewrite Hcan.
    + cbn [columns parse_table]. now rewrite Hcan.
    + cbn [columns parse_table]. rewrite Hcan. apply NoDup_fieldnames.
    + apply parse_table_rectangular.
    + unfold rectangular. cbn [rows columns]. constructor; [|constructor].
      unfold values. rewrite length_map, <- (length_map fst). fold (keys d).
      now rewrite Hk.
  - cbn in Hload. injection Hload as <-.
    unfold save_to_csv, try_except_io, read_csv. cbn [bind io_monad ret is_FileNotFoundError].
    rewrite (pd_DataFrame_one d (Some fieldnames) Hk (or_intror eq_refl)).
    reflexivity.
Qed.




(** ** Append and load *)




(** ** The network type *)

(** C2. When the organization equals the known organization string or the
    asn equals the known ASN string, the network type is "Starlink"; in
    every other case it is the raw organization string, or "Unknown" when
    the organization field is absent.  The "Network Type" field of every
    record the builder returns is this network type of the ISP record. *)
Theorem network_type_known_or_raw :
  (forall isp_info : gmap string string,
      (isp_info !! "org" = Some known_starlink_org
       \/ isp_info !! "asn" = Some known_starlink_asn ->
       is_starlink isp_info = true /\ network_type isp_info = "Starlink")
      /\ (~ (isp_info !! "org" = Some known_starlink_org
             \/ isp_info !! "asn" = Some known_starlink_asn) ->
          is_starlink isp_info = false
          /\ network_type isp_info
             = match isp_info !! "org" with Some org => org | None => "Unknown" end))
  /\ (forall w d,
        get_internet_details w = Ok d ->
        exists ip isp_info,
          get_public_ip w = Ok ip /\ get_isp_info w ip = Ok isp_info
          /\ dict_lookup d "Network Type" = Some (VStr (network_type isp_info))).
Proof.
  split.
  - intros isp_info. split; intros H.
    + apply is_starlink_true_iff in H. unfold network_type. now rewrite H.
    + assert (Hf : is_starlink isp_info = false).
      { apply is_starlink_false_iff. split; intros E; apply H; auto. }
      unfold network_type, get_default. rewrite Hf. split; [reflexivity|].
      now destruct (isp_info !! "org").
  - intros w d H.
    destruct (get_internet_details_built w d H)
      as (ip & isp_info & dl & ul & pg & Hip & Hisp & _ & ->).
    exists ip, isp_info. repeat split; assumption.
Qed.

Lemma network_type_known_or_raw_witness :
  network_type {[ "org" := "Some ISP"; "asn" := "AS14593" ]} = "Starlink"
  /\ network_type denver = "Comcast"
  /\ network_type {[ "city" := "Denver" ]} = "Unknown"
  /\ exists ip isp_info,
       get_public_ip (world_ok "98.97.0.10" plano) = Ok ip
       /\ get_isp_info (world_ok "98.97.0.10" plano) ip = Ok isp_info
       /\ dict_lookup plano_details "Network Type" = Some (VStr (network_type isp_info)).
Proof.
  destruct network_type_known_or_raw as [Hclass Hbuilt].
  split; [|split; [|split]].
  - apply (Hclass {[ "org" := "Some ISP"; "asn" := "AS14593" ]}).
    right. vm_compute. reflexivity.
  - refine (eq_trans (proj2 (proj2 (Hclass denver) _)) _).
    + intros [H|H]; vm_compute in H; discriminate H.
    + vm_compute. reflexivity.
  - refine (eq_trans (proj2 (proj2 (Hclass {[ "city" := "Denver" ]}) _)) _).
    + intros [H|H]; vm_compute in H; discriminate H.
    + vm_compute. reflexivity.
  - apply (Hbuilt (world_ok "98.97.0.10" plano) plano_details).
    vm_compute. reflexivity.
Defined.

(** ** Measurement failures and identity failures *)

(** C3. When the speed test raises its configuration-retrieval error, the
    measurement does not raise: it returns "Error" for download, upload and
    ping, and the record is still built, complete, its three speed fields
    "Error" and its identity fields filled from the lookups as usual. *)
Theorem configuration_failure_gives_error_fields (w : world) :
  run_speedtest w = Raise ConfigRetrievalError ->
  get_internet_speed w
  = Ok [ ("Download Speed (Mbps)", VStr "Error");
         ("Upload Speed (Mbps)", VStr "Error");
         ("Ping (ms)", VStr "Error") ]
  /\ forall ip isp_info,
       get_public_ip w = Ok ip -> get_isp_info w ip = Ok isp_info ->
       let loc := split "," (get_default isp_info "loc" "Unknown,Unknown") in
       get_internet_details w
       = Ok [ ("Timestamp", VStr (now w));
              ("IP Address", VStr ip);
              ("ISP", VStr (get_default isp_info "org" "Unknown"));
              ("City", VStr (get_default isp_info "city" "Unknown"));
              ("Region", VStr (get_default isp_info "region" "Unknown"));
              ("Country", VStr (get_default isp_info "country" "Unknown"));
              ("Latitude", VStr (fst (first_two loc)));
              ("Longitude", VStr (snd (first_two loc)));
              ("Network Type", VStr (network_type isp_info));
              ("Download Speed (Mbps)", VStr "Error");
              ("Upload Speed (Mbps)", VStr "Error");
              ("Ping (ms)", VStr "Error") ].
Proof.
  intros H.
  assert (Hs : get_internet_speed w = Ok speed_error).
  { unfold get_internet_speed. now rewrite H. }
  split; [exact Hs|].
  intros ip isp_info Hip Hisp. now apply get_internet_details_ok.
Qed.

Lemma configuration_failure_gives_error_fields_witness :
  get_internet_speed (world_speed_fails "203.0.113.7" denver 0 ConfigRetrievalError)
  = Ok [ ("Download Speed (Mbps)", VStr "Error");
         ("Upload Speed (Mbps)", VStr "Error");
         ("Ping (ms)", VStr "Error") ]
  /\ get_internet_details (world_speed_fails "203.0.113.7" denver 0 ConfigRetrievalError)
     = Ok denver_details.
Proof.
  destruct (configuration_failure_gives_error_fields
              (world_speed_fails "203.0.113.7" denver 0 ConfigRetrievalError) eq_refl)
    as [Hspeed Hbuilt].
  split; [exact Hspeed|].
  refine (eq_trans (Hbuilt "203.0.113.7" denver _ _) _); vm_compute; reflexivity.
Defined.

(** C4. When the public-IP lookup or the ISP lookup raises, no record is
    built and the cycle ends with that exception, the file being exactly as
    it was: nothing is appended. *)
Theorem identity_failure_skips_append (w : world) (e : exn) (fs : filesystem) :
  get_public_ip w = Raise e
  \/ (exists ip, get_public_ip w = Ok ip /\ get_isp_info w ip = Raise e) ->
  get_internet_details w = Raise e
  /\ update_dashboard w fs = (Raise e, fs).
Proof.
  intros H.
  assert (Hd : get_internet_details w = Raise e).
  { apply get_internet_details_raises. tauto. }
  split; [exact Hd|]. now apply update_dashboard_aborts.
Qed.

Lemma identity_failure_skips_append_witness :
  (get_internet_details world_no_ip = Raise (OtherError "ConnectionError")
   /\ update_dashboard world_no_ip (Some one_row_file)
      = (Raise (OtherError "ConnectionError"), Some one_row_file))
  /\ (get_internet_details world_isp_429 = Raise HTTPError
      /\ update_dashboard world_isp_429 None = (Raise HTTPError, None)).
Proof.
  split.
  - apply (identity_failure_skips_append world_no_ip). left. reflexivity.
  - apply (identity_failure_skips_append world_isp_429). right.
    exists "203.0.113.7". split; reflexivity.
Defined.

(** ** Latitude and longitude *)

(** C5, as the code has it.  The location string is split at every comma.
    Both latitude and longitude are "Unknown" when it splits into fewer
    than two parts, that is when it holds no comma; when it splits into
    two parts or more, latitude is the first part and longitude the second,
    further parts being ignored.  So "bad-loc" gives "Unknown" twice and
    "33.1,-96.8" gives "33.1" and "-96.8".  The builder stores these two
    values, computed from the "loc" field (or from "Unknown,Unknown" when
    the field is absent), as "Latitude" and "Longitude". *)
Theorem coordinates_from_location :
  (forall loc : string,
      let parts := split "," loc in
      (count_char "," loc = 0 <-> length parts < 2)
      /\ (length parts < 2 ->
          coordinate parts 0 = Ok "Unknown" /\ coordinate parts 1 = Ok "Unknown")
      /\ (2 <= length parts ->
          exists a b rest, parts = a :: b :: rest
                           /\ coordinate parts 0 = Ok a /\ coordinate parts 1 = Ok b))
  /\ (forall w d,
        get_internet_details w = Ok d ->
        exists ip isp_info latitude longitude,
          get_public_ip w = Ok ip /\ get_isp_info w ip = Ok isp_info
          /\ let parts := split "," (get_default isp_info "loc" "Unknown,Unknown") in
             coordinate parts 0 = Ok latitude
             /\ coordinate parts 1 = Ok longitude
             /\ dict_lookup d "Latitude" = Some (VStr latitude)
             /\ dict_lookup d "Longitude" = Some (VStr longitude)).
Proof.
  split.
  - intros loc parts. subst parts. split; [|split].
    + rewrite length_split. lia.
    + intros H. destruct (split "," loc) as [|a [|b l]]; simpl in H;
        [split; reflexivity | split; reflexivity | lia].
    + intros H. destruct (split "," loc) as [|a [|b l]]; simpl in H; [lia | lia |].
      exists a, b, l. repeat split; reflexivity.
  - intros w d H.
    destruct (get_internet_details_built w d H)
      as (ip & isp_info & dl & ul & pg & Hip & Hisp & _ & ->).
    exists ip, isp_info. eexists _, _.
    split; [exact Hip|]. split; [exact Hisp|]. cbv zeta.
    destruct (coordinate_first_two
                (split "," (get_default isp_info "loc" "Unknown,Unknown")))
      as [H0 H1].
    split; [exact H0|]. split; [exact H1|]. split; reflexivity.
Qed.

Lemma coordinates_from_location_witness :
  (coordinate (split "," "bad-loc") 0 = Ok "Unknown"
   /\ coordinate (split "," "bad-loc") 1 = Ok "Unknown")
  /\ (exists a b rest, split "," "33.1,-96.8" = a :: b :: rest
                       /\ coordinate (split "," "33.1,-96.8") 0 = Ok a
                       /\ coordinate (split "," "33.1,-96.8") 1 = Ok b)
  /\ (exists ip isp_info latitude longitude,
        get_public_ip (world_ok "98.97.0.10" plano) = Ok ip
        /\ get_isp_info (world_ok "98.97.0.10" plano) ip = Ok isp_info
        /\ let parts := split "," (get_default isp_info "loc" "Unknown,Unknown") in
           coordinate parts 0 = Ok latitude
           /\ coordinate parts 1 = Ok longitude
           /\ dict_lookup plano_details "Latitude" = Some (VStr latitude)
           /\ dict_lookup plano_details "Longitude" = Some (VStr longitude)).
Proof.
  destruct coordinates_from_location as [Hsplit Hbuilt].
  split; [|split].
  - apply (Hsplit "bad-loc"). vm_compute. lia.
  - apply (Hsplit "33.1,-96.8"). vm_compute. lia.
  - apply (Hbuilt (world_ok "98.97.0.10" plano) plano_details).
    vm_compute. reflexivity.
Defined.

(** A location string of three parts keeps its first two: the coordinates
    are not "Unknown" although the string does not split into exactly two
    parts, and the builder stores them. *)
Lemma three_parts_not_unknown :
  ~ unknown_unless_two_parts "33.1,-96.8,120"
  /\ exists d,
       get_internet_details (world_ok "98.97.0.10" {[ "loc" := "33.1,-96.8,120" ]}) = Ok d
       /\ dict_lookup d "Latitude" = Some (VStr "33.1")
       /\ dict_lookup d "Longitude" = Some (VStr "-96.8").
Proof.
  split.
  - intros H. destruct H as [H _]; [vm_compute; lia|].
    vm_compute in H. discriminate H.
  - eexists. split; [vm_compute; reflexivity|]. split; reflexivity.
Qed.

(** ** The missing store *)

(** C6. Loading when the file does not exist is not an error: it gives no
    rows under the twelve canonical columns, exactly what loading an empty
    table with that header gives, and leaves the file absent. *)
Theorem load_data_missing_file :
  load_data None
  = (Ok {| columns := [ "Timestamp"; "IP Address"; "ISP"; "City"; "Region";
                        "Country"; "Latitude"; "Longitude"; "Network Type";
                        "Download Speed (Mbps)"; "Upload Speed (Mbps)";
                        "Ping (ms)" ];
           rows := [] |}, None)
  /\ length fieldnames = 12
  /\ fst (load_data None)
     = fst (load_data (Some {| header := fieldnames; lines := [] |})).
Proof. repeat split. Qed.

(** ** Units *)

(** C7, as the code has it.  After a successful measurement the download
    and upload figures are the raw rates of the measurement library divided
    by 1,000,000 in floating point, which is the conversion of a rate in
    bits per second to megabits per second; no factor of eight is applied.
    The ping is the raw value, unchanged. *)
Theorem get_internet_speed_normalizes (w : world) :
  Speedtest w = Ok tt -> st_download w = Ok tt -> st_upload w = Ok tt ->
  get_internet_speed w
  = Ok [ ("Download Speed (Mbps)",
          VNum (megabits_per_second_of_bit_rate (download (st_results w))));
         ("Upload Speed (Mbps)",
          VNum (megabits_per_second_of_bit_rate (upload (st_results w))));
         ("Ping (ms)", VNum (ping (st_results w))) ]
  /\ megabits_per_second_of_bit_rate (download (st_results w))
     = (download (st_results w) / 1000000)%float
  /\ megabits_per_second_of_bit_rate (upload (st_results w))
     = (upload (st_results w) / 1000000)%float.
Proof.
  intros H1 H2 H3. split; [|split; reflexivity].
  unfold get_internet_speed. rewrite (run_speedtest_ok w H1 H2 H3). reflexivity.
Qed.

Lemma get_internet_speed_normalizes_witness :
  get_internet_speed (world_ok "98.97.0.10" plano)
  = Ok [ ("Download Speed (Mbps)", VNum 85.123456);
         ("Upload Speed (Mbps)", VNum 12.5);
         ("Ping (ms)", VNum 23.456) ].
Proof.
  refine (eq_trans (proj1 (get_internet_speed_normalizes
                             (world_ok "98.97.0.10" plano) eq_refl eq_refl eq_refl)) _).
  vm_compute. reflexivity.
Defined.

(** A successful measurement whose raw download rate is 85123456 per
    second gives the figure 85.123456; a rate of 85123456 bytes per second
    is 680.987648 megabits per second.  The figures are not the byte rates
    brought to megabits per second. *)
Lemma byte_rate_not_converted :
  get_internet_speed (world_ok "98.97.0.10" plano)
  = Ok [ ("Download Speed (Mbps)", VNum 85.123456);
         ("Upload Speed (Mbps)", VNum 12.5);
         ("Ping (ms)", VNum 23.456) ]
  /\ megabits_per_second_of_byte_rate (download (st_results (world_ok "98.97.0.10" plano)))
     = 680.987648%float
  /\ megabits_per_second_of_byte_rate (upload (st_results (world_ok "98.97.0.10" plano)))
     = 100%float
  /\ ~ normalizes_byte_rates (world_ok "98.97.0.10" plano).
Proof.
  split; [vm_compute; reflexivity|].
  split; [vm_compute; reflexivity|].
  split; [vm_compute; reflexivity|].
  unfold normalizes_byte_rates. intros H.
  apply (f_equal (fun r => match r with
                           | Ok ((_, VNum x) :: _) => PrimFloat.Leibniz.eqb x 85.123456
                           | _ => false
                           end)) in H.
  vm_compute in H. discriminate H.
Qed.

(** ** Other speed test errors *)

(** C8. Only the configuration-retrieval error is turned into "Error"
    values.  Any other exception of the speed test, for instance one raised
    by the download or the upload, leaves the measurement as it is raised
    and ends the cycle: no record is built and the file is not touched. *)
Theorem other_speedtest_errors_abort (w : world) (e : exn) :
  run_speedtest w = Raise e -> e <> ConfigRetrievalError ->
  get_internet_speed w = Raise e
  /\ (forall fs, exists e', get_internet_details w = Raise e'
                            /\ update_dashboard w fs = (Raise e', fs))
  /\ (forall ip isp_info fs,
        get_public_ip w = Ok ip -> get_isp_info w ip = Ok isp_info ->
        get_internet_details w = Raise e
        /\ update_dashboard w fs = (Raise e, fs)).
Proof.
  intros Hr Hne.
  assert (Hs : get_internet_speed w = Raise e).
  { unfold get_internet_speed. rewrite Hr. simpl. destruct e; try reflexivity.
    now contradiction Hne. }
  assert (Hok : forall ip isp_info,
             get_public_ip w = Ok ip -> get_isp_info w ip = Ok isp_info ->
             get_internet_details w = Raise e).
  { intros ip isp_info Hip Hisp. apply get_internet_details_raises.
    right; right. eauto. }
  split; [exact Hs|]. split.
  - intros fs.
    destruct (get_public_ip w) as [ip|e1] eqn:Hip.
    + destruct (get_isp_info w ip) as [isp_info|e2] eqn:Hisp.
      * exists e. split; [eauto|]. apply update_dashboard_aborts. eauto.
      * assert (get_internet_details w = Raise e2)
          by (apply get_internet_details_raises; eauto).
        exists e2. split; [assumption|]. now apply update_dashboard_aborts.
    + assert (get_internet_details w = Raise e1)
        by (apply get_internet_details_raises; eauto).
      exists e1. split; [assumption|]. now apply update_dashboard_aborts.
  - intros ip isp_info fs Hip Hisp. split; [eauto|].
    apply update_dashboard_aborts. eauto.
Qed.

Lemma other_speedtest_errors_abort_witness :
  get_internet_speed
    (world_speed_fails "203.0.113.7" denver 1 (OtherError "SpeedtestBestServerFailure"))
  = Raise (OtherError "SpeedtestBestServerFailure")
  /\ update_dashboard
       (world_speed_fails "203.0.113.7" denver 2 (OtherError "SpeedtestUploadTimeout"))
       (Some one_row_file)
     = (Raise (OtherError "SpeedtestUploadTimeout"), Some one_row_file).
Proof.
  split.
  - apply (other_speedtest_errors_abort
             (world_speed_fails "203.0.113.7" denver 1
                (OtherError "SpeedtestBestServerFailure"))).
    + reflexivity.
    + discriminate.
  - apply (proj2 (proj2 (other_speedtest_errors_abort
             (world_speed_fails "203.0.113.7" denver 2
                (OtherError "SpeedtestUploadTimeout"))
             (OtherError "SpeedtestUploadTimeout") eq_refl ltac:(discriminate)))
             "203.0.113.7" denver); vm_compute; reflexivity.
Defined.

(** ** Homogeneous speed fields *)

(** C9. In every record the builder returns, the three speed fields are
    three numbers or three "Error": never a mixture. *)
Theorem speed_fields_homogeneous (w : world) (d : dict) :
  get_internet_details w = Ok d ->
  (exists a b c,
      dict_lookup d "Download Speed (Mbps)" = Some (VNum a)
      /\ dict_lookup d "Upload Speed (Mbps)" = Some (VNum b)
      /\ dict_lookup d "Ping (ms)" = Some (VNum c))
  \/ (dict_lookup d "Download Speed (Mbps)" = Some (VStr "Error")
      /\ dict_lookup d "Upload Speed (Mbps)" = Some (VStr "Error")
      /\ dict_lookup d "Ping (ms)" = Some (VStr "Error")).
Proof.
  intros H.
  destruct (get_internet_details_inv w d H) as (ip & isp_info & sp & Hip & Hisp & Hsp).
  destruct (get_internet_speed_shape w sp Hsp) as [(a & b & c & ->)| ->].
  - rewrite (get_internet_details_ok w ip isp_info _ _ _ Hip Hisp Hsp) in H.
    inversion H; subst. left. exists a, b, c. repeat split; reflexivity.
  - rewrite (get_internet_details_ok w ip isp_info _ _ _ Hip Hisp Hsp) in H.
    inversion H; subst. right. repeat split; reflexivity.
Qed.

Lemma speed_fields_homogeneous_witness :
  (exists a b c,
      dict_lookup plano_details "Download Speed (Mbps)" = Some (VNum a)
      /\ dict_lookup plano_details "Upload Speed (Mbps)" = Some (VNum b)
      /\ dict_lookup plano_details "Ping (ms)" = Some (VNum c))
  \/ (dict_lookup plano_details "Download Speed (Mbps)" = Some (VStr "Error")
      /\ dict_lookup plano_details "Upload Speed (Mbps)" = Some (VStr "Error")
      /\ dict_lookup plano_details "Ping (ms)" = Some (VStr "Error")).
Proof.
  apply (speed_fields_homogeneous (world_ok "98.97.0.10" plano) plano_details).
  vm_compute. reflexivity.
Defined.

(** ** Exact matching *)

(** C10. The classifier reads nothing but the organization and asn fields,
    and matches them by exact string equality: records that agree on both
    fields are classified alike, and a value that differs from the known
    string only in letter case, or that has extra text around it, does not
    match. *)
Theorem is_starlink_exact_on_org_and_asn :
  (forall i1 i2 : gmap string string,
      i1 !! "org" = i2 !! "org" -> i1 !! "asn" = i2 !! "asn" ->
      is_starlink i1 = is_starlink i2 /\ network_type i1 = network_type i2)
  /\ (forall (i : gmap string string) (org : string),
        i !! "org" = Some org -> near_miss org known_starlink_org ->
        i !! "asn" <> Some known_starlink_asn ->
        is_starlink i = false /\ network_type i = org)
  /\ (forall (i : gmap string string) (asn : string),
        i !! "asn" = Some asn -> near_miss asn known_starlink_asn ->
        i !! "org" <> Some known_starlink_org ->
        is_starlink i = false).
Proof.
  split; [|split].
  - intros i1 i2 Ho Ha. unfold network_type, get_default, is_starlink.
    rewrite Ho, Ha. split; reflexivity.
  - intros i org Ho Hn Ha. apply near_miss_neq in Hn.
    assert (Hf : is_starlink i = false).
    { apply is_starlink_false_iff. split; [|exact Ha]. rewrite Ho. congruence. }
    split; [exact Hf|]. unfold network_type, get_default. now rewrite Hf, Ho.
  - intros i asn Ha Hn Ho. apply near_miss_neq in Hn.
    apply is_starlink_false_iff. split; [exact Ho|]. rewrite Ha. congruence.
Qed.

Lemma is_starlink_exact_on_org_and_asn_witness :
  (is_starlink {[ "org" := "Comcast"; "asn" := "AS7922"; "city" := "Denver" ]}
   = is_starlink {[ "org" := "Comcast"; "asn" := "AS7922"; "city" := "Plano" ]})
  /\ is_starlink {[ "org" := "AS14593 Space Exploration Technologies Corp" ]} = false
  /\ is_starlink {[ "org" := "space exploration technologies corp" ]} = false
  /\ is_starlink {[ "asn" := "as14593" ]} = false.
Proof.
  destruct is_starlink_exact_on_org_and_asn as (Hdep & Horg & Hasn).
  split; [|split; [|split]].
  - apply Hdep; vm_compute; reflexivity.
  - apply (Horg _ "AS14593 Space Exploration Technologies Corp").
    + vm_compute; reflexivity.
    + right. exists "AS14593 ", "". split; [left; discriminate | reflexivity].
    + vm_compute. discriminate.
  - apply (Horg _ "space exploration technologies corp").
    + vm_compute; reflexivity.
    + left. split; [discriminate | vm_compute; reflexivity].
    + vm_compute. discriminate.
  - apply (Hasn _ "as14593").
    + vm_compute; reflexivity.
    + left. split; [discriminate | vm_compute; reflexivity].
    + vm_compute. discriminate.
Defined.

(** ** The two lookups *)

(** X2. The ISP lookup asks for the address it is given, raises what the
    request raises and HTTPError on a status from 400 to 599, and otherwise
    returns the JSON body as it is, whatever fields it has or lacks. *)
Theorem get_isp_info_outcomes (w : world) (ip : string) :
  let url := "https://ipinfo.io/" +:+ ip +:+ "/json" in
  (forall e, requests_get w url = Raise e -> get_isp_info w ip = Raise e)
  /\ (forall r, requests_get w url = Ok r ->
        (400 <= status_code r < 600)%Z -> get_isp_info w ip = Raise HTTPError)
  /\ (forall r, requests_get w url = Ok r ->
        ~ (400 <= status_code r < 600)%Z ->
        get_isp_info w ip
        = match json r with
          | None => Raise JSONDecodeError
          | Some o => Ok o
          end).
Proof.
  intros url. subst url. unfold get_isp_info, raise_for_status, response_json.
  split; [|split].
  - intros e H. now rewrite H.
  - intros r H Hs. rewrite H. cbn [bind result_monad].
    replace ((400 <=? status_code r)%Z) with true by (symmetry; apply Z.leb_le; lia).
    replace ((status_code r <? 600)%Z) with true by (symmetry; apply Z.ltb_lt; lia).
    reflexivity.
  - intros r H Hs. rewrite H. cbn [bind result_monad].
    destruct (Z.leb_spec 400 (status_code r)), (Z.ltb_spec (status_code r) 600);
      try lia; cbn; now destruct (json r).
Qed.

Lemma get_isp_info_outcomes_witness :
  get_isp_info world_isp_429 "203.0.113.7" = Raise HTTPError
  /\ get_isp_info (world_ok "203.0.113.7" empty) "203.0.113.7" = Ok empty.
Proof.
  split.
  - apply (proj1 (proj2 (get_isp_info_outcomes world_isp_429 "203.0.113.7"))
             {| status_code := 429; json := None |}).
    + reflexivity.
    + cbn. lia.
  - refine (eq_trans (proj2 (proj2 (get_isp_info_outcomes
                                      (world_ok "203.0.113.7" empty) "203.0.113.7"))
                        {| status_code := 200; json := Some empty |} _ _) eq_refl).
    + vm_compute. reflexivity.
    + cbn. lia.
Defined.

(** ** The measurement, step by step *)

(** X3. The measurement is decided by the first step of the speed test
    that raises: with no failing step the three figures are returned; a
    configuration-retrieval error gives the three "Error" values at
    whichever step it is raised, also by the download or the upload; any
    other exception is raised as it is, the later steps not counting. *)
Theorem get_internet_speed_by_first_failure (w : world) :
  (first_failure w = None ->
   get_internet_speed w
   = Ok [ ("Download Speed (Mbps)", VNum (div_1_000_000 (download (st_results w))));
          ("Upload Speed (Mbps)", VNum (div_1_000_000 (upload (st_results w))));
          ("Ping (ms)", VNum (ping (st_results w))) ])
  /\ (first_failure w = Some ConfigRetrievalError ->
      get_internet_speed w = Ok speed_error)
  /\ (forall e, first_failure w = Some e -> e <> ConfigRetrievalError ->
        get_internet_speed w = Raise e).
Proof.
  unfold first_failure, get_internet_speed, run_speedtest.
  destruct (Speedtest w) as [[]|e0]; cbn [bind result_monad].
  - destruct (st_download w) as [[]|e1]; cbn [bind result_monad].
    + destruct (st_upload w) as [[]|e2]; cbn [bind result_monad try_except].
      * repeat split; [discriminate | discriminate].
      * split; [discriminate|]. split.
        -- intros [= ->]. reflexivity.
        -- intros e [= ->] Hne. destruct e; try reflexivity. contradiction.
    + cbn [try_except]. split; [discriminate|]. split.
      * intros [= ->]. reflexivity.
      * intros e [= ->] Hne. destruct e; try reflexivity. contradiction.
  - cbn [try_except]. split; [discriminate|]. split.
    + intros [= ->]. reflexivity.
    + intros e [= ->] Hne. destruct e; try reflexivity. contradiction.
Qed.

Lemma get_internet_speed_by_first_failure_witness :
  get_internet_speed (world_speed_fails "203.0.113.7" denver 2 ConfigRetrievalError)
  = Ok speed_error
  /\ get_internet_speed
       (world_speed_fails "203.0.113.7" denver 1 (OtherError "SpeedtestBestServerFailure"))
     = Raise (OtherError "SpeedtestBestServerFailure")
  /\ is_Ok (get_internet_speed (world_ok "98.97.0.10" plano)) = true.
Proof.
  split; [|split].
  - apply (get_internet_speed_by_first_failure
             (world_speed_fails "203.0.113.7" denver 2 ConfigRetrievalError)).
    reflexivity.
  - apply (get_internet_speed_by_first_failure
             (world_speed_fails "203.0.113.7" denver 1
                (OtherError "SpeedtestBestServerFailure"))).
    + reflexivity.
    + discriminate.
  - rewrite (proj1 (get_internet_speed_by_first_failure (world_ok "98.97.0.10" plano))
               eq_refl).
    reflexivity.
Defined.
(** ** The record *)

(** X6. In every record the network type is either "Starlink" or the very
    text of the ISP field; so it is "Unknown" only when the ISP is. *)
Theorem network_type_is_starlink_or_isp (w : world) (d : dict) :
  get_internet_details w = Ok d ->
  exists isp,
    dict_lookup d "ISP" = Some (VStr isp)
    /\ (dict_lookup d "Network Type" = Some (VStr "Starlink")
        \/ dict_lookup d "Network Type" = Some (VStr isp)).
Proof.
  intros H.
  destruct (get_internet_details_built w d H)
    as (ip & isp_info & dl & ul & pg & _ & _ & _ & ->).
  exists (get_default isp_info "org" "Unknown"). split; [reflexivity|].
  cbn. unfold network_type. destruct (is_starlink isp_info); [left|right]; reflexivity.
Qed.

Lemma network_type_is_starlink_or_isp_witness :
  exists isp,
    dict_lookup plano_details "ISP" = Some (VStr isp)
    /\ (dict_lookup plano_details "Network Type" = Some (VStr "Starlink")
        \/ dict_lookup plano_details "Network Type" = Some (VStr isp)).
Proof.
  apply (network_type_is_starlink_or_isp (world_ok "98.97.0.10" plano) plano_details).
  vm_compute. reflexivity.
Defined.

(** ** Splitting the location *)

Lemma split_parts_no_sep (sep : ascii) (s : string) :
  Forall (fun p => count_char sep p = 0) (split sep s).
Proof.
  induction s as [|c s IH]; simpl; [repeat constructor|].
  destruct (Ascii.eqb c sep) eqn:E.
  - constructor; [reflexivity | exact IH].
  - destruct (split sep s) as [|p ps]; [repeat constructor; simpl; now rewrite E|].
    inversion IH; subst. constructor; [|assumption]. simpl. now rewrite E.
Qed.

Lemma join_split (sep : ascii) (s : string) : join sep (split sep s) = s.
Proof.
  induction s as [|c s IH]; [reflexivity|]. simpl.
  pose proof (split_not_nil sep s) as Hne.
  destruct (Ascii.eqb_spec c sep) as [->|Hc].
  - destruct (split sep s) as [|p ps]; [contradiction|].
    change (join sep ("" :: p :: ps)) with ("" +:+ String sep (join sep (p :: ps))).
    now rewrite IH.
  - destruct (split sep s) as [|p ps]; [contradiction|].
    destruct ps as [|q qs].
    + simpl in *. now rewrite IH.
    + change (join sep (String c p :: q :: qs))
        with (String c p +:+ String sep (join sep (q :: qs))).
      rewrite string_app_cons. f_equal. exact IH.
Qed.

(** X7. Splitting loses nothing and leaves no comma behind: the parts of
    a location string joined with commas give the string back, no part
    holds a comma, and so the latitude and longitude of every record are
    free of commas; when the location holds exactly one comma, latitude,
    a comma and longitude spell the location. *)
Theorem split_location_lossless :
  (forall loc : string,
      join "," (split "," loc) = loc
      /\ Forall (fun p => count_char "," p = 0) (split "," loc)
      /\ (count_char "," loc = 1 ->
          exists latitude longitude,
            coordinate (split "," loc) 0 = Ok latitude
            /\ coordinate (split "," loc) 1 = Ok longitude
            /\ latitude +:+ String "," longitude = loc))
  /\ (forall w d,
        get_internet_details w = Ok d ->
        exists latitude longitude,
          dict_lookup d "Latitude" = Some (VStr latitude)
          /\ dict_lookup d "Longitude" = Some (VStr longitude)
          /\ count_char "," latitude = 0 /\ count_char "," longitude = 0).
Proof.
  split.
  - intros loc. split; [apply join_split|]. split; [apply split_parts_no_sep|].
    intros H1. pose proof (length_split "," loc) as Hlen. rewrite H1 in Hlen.
    pose proof (join_split "," loc) as Hj.
    destruct (split "," loc) as [|a [|b [|c l]]]; try discriminate Hlen.
    exists a, b. repeat split; try reflexivity. exact Hj.
  - intros w d H.
    destruct (get_internet_details_built w d H)
      as (ip & isp_info & dl & ul & pg & _ & _ & _ & ->).
    eexists _, _. split; [reflexivity|]. split; [reflexivity|].
    pose proof (split_parts_no_sep "," (get_default isp_info "loc" "Unknown,Unknown"))
      as Hp.
    destruct (split "," (get_default isp_info "loc" "Unknown,Unknown"))
      as [|a [|b l]]; cbn; [split; reflexivity | split; reflexivity |].
    inversion Hp as [|? ? Ha Hp']; subst. inversion Hp' as [|? ? Hb _]; subst.
    split; assumption.
Qed.

Lemma split_location_lossless_witness :
  (exists latitude longitude,
      coordinate (split "," "33.1,-96.8") 0 = Ok latitude
      /\ coordinate (split "," "33.1,-96.8") 1 = Ok longitude
      /\ latitude +:+ String "," longitude = "33.1,-96.8")
  /\ (exists latitude longitude,
        dict_lookup plano_details "Latitude" = Some (VStr latitude)
        /\ dict_lookup plano_details "Longitude" = Some (VStr longitude)
        /\ count_char "," latitude = 0 /\ count_char "," longitude = 0).
Proof.
  destruct split_location_lossless as [Hsplit Hbuilt].
  split.
  - apply (Hsplit "33.1,-96.8"). reflexivity.
  - apply (Hbuilt (world_ok "98.97.0.10" plano) plano_details).
    vm_compute. reflexivity.
Defined.
(** ** The whole cycle *)

Lemma length_rows_parse_table (f : csv_file) :
  length (rows (parse_table f)) = length (lines f).
Proof. unfold parse_table. cbn [rows]. apply length_map. Qed.

Lemma load_data_rendered (t : list (list value)) :
  load_data (Some (render {| columns := fieldnames; rows := t |}))
  = (Ok (parse_table (render {| columns := fieldnames; rows := t |})),
     Some (render {| columns := fieldnames; rows := t |})).
Proof. reflexivity. Qed.

Lemma display_of_built_record (w : world) (d : dict) :
  get_internet_details w = Ok d ->
  map_result (html_P d) fieldnames = Ok (map show_field d).
Proof.
  intros H.
  destruct (get_internet_details_built w d H)
    as (ip & isp_info & dl & ul & pg & _ & _ & _ & ->).
  reflexivity.
Qed.

(** What a cycle returns and leaves in the file once the record is built. *)
Lemma update_dashboard_ok (w : world) (fs : filesystem) (d : dict) (before : DataFrame) :
  canonical_store fs -> load_data fs = (Ok before, fs) ->
  get_internet_details w = Ok d ->
  let written := render {| columns := fieldnames; rows := rows before ++ [values d] |} in
  let after := rows (parse_table written) in
  update_dashboard w fs
  = (Ok (map show_field d,
         {| fig_x := map (fun r => nth 0 r VNaN) after;
            fig_y := [ ("Download Speed (Mbps)", map (fun r => nth 9 r VNaN) after);
                       ("Upload Speed (Mbps)", map (fun r => nth 10 r VNaN) after);
                       ("Ping (ms)", map (fun r => nth 11 r VNaN) after) ] |}),
     Some written).
Proof.
  intros Hcan Hload Hd written after.
  unfold update_dashboard, lift. cbn [bind io_monad]. rewrite Hd.
  rewrite (save_to_csv_canonical fs d before Hcan Hload
             (get_internet_details_keys w d Hd)).
  fold written. unfold written at 1. rewrite load_data_rendered.
  rewrite (display_of_built_record w d Hd). reflexivity.
Qed.

(** One firing of the callback: the store stays canonical and gains a line
    exactly when the record was built. *)
Lemma update_dashboard_step (w : world) (fs : filesystem) :
  canonical_store fs ->
  canonical_store (snd (update_dashboard w fs))
  /\ line_count (snd (update_dashboard w fs))
     = line_count fs + (if is_Ok (get_internet_details w) then 1 else 0).
Proof.
  intros Hcan. destruct (get_internet_details w) as [d|e] eqn:Hd.
  - destruct (load_data_canonical fs Hcan) as (before & Hload & _).
    rewrite (update_dashboard_ok w fs d before Hcan Hload Hd). cbn [snd is_Ok].
    split; [reflexivity|].
    unfold line_count, render. cbn [lines rows].
    rewrite length_map, length_app. cbn [length].
    assert (length (rows before) = line_count fs) as ->; [|reflexivity].
    destruct fs as [f|]; simpl in Hcan.
    + unfold load_data, try_except_io, read_csv in Hload. rewrite Hcan in Hload.
      cbn in Hload. injection Hload as <-. apply length_rows_parse_table.
    + cbn in Hload. injection Hload as <-. reflexivity.
  - rewrite (update_dashboard_aborts w e fs Hd). cbn [snd is_Ok]. split; [exact Hcan|lia].
Qed.

(** Any sequence of firings, from a store under the canonical header. *)
Lemma run_triggers_from_canonical (ws : list world) (fs : filesystem) :
  canonical_store fs ->
  canonical_store (run_triggers ws fs)
  /\ line_count (run_triggers ws fs)
     = line_count fs
       + length (List.filter (fun w => is_Ok (get_internet_details w)) ws).
Proof.
  revert fs. induction ws as [|w ws IH]; intros fs Hcan.
  - cbn. split; [exact Hcan|lia].
  - destruct (update_dashboard_step w fs Hcan) as [Hcan' Hcount].
    destruct (IH _ Hcan') as (Hc & Hl).
    cbn [run_triggers List.filter]. split; [exact Hc|].
    rewrite Hl, Hcount. destruct (is_Ok (get_internet_details w)); cbn [length]; lia.
Qed.

Lemma run_triggers_no_success (ws : list world) :
  List.filter (fun w => is_Ok (get_internet_details w)) ws = [] ->
  run_triggers ws None = None.
Proof.
  induction ws as [|w ws IH]; [reflexivity|]. cbn [List.filter run_triggers].
  destruct (get_internet_details w) as [d|e] eqn:Hd; cbn [is_Ok]; [discriminate|].
  intros Hf. rewrite (update_dashboard_aborts w e None Hd). cbn [snd]. auto.
Qed.

(** X8. In a store the program has built up itself (any sequence of
    firings from no file), a cycle whose record is built always succeeds.
    It returns the twelve fields as "label: value" lines in canonical order
    and a figure with one point per stored record in each of its three
    series; the file it leaves has the canonical header, one line per
    record loaded before, and as its last line the texts of the new
    record. *)
Theorem successful_cycle (ws : list world) (w : world) (d : dict) :
  get_internet_details w = Ok d ->
  let fs := run_triggers ws None in
  exists before fig f' old,
    load_data fs = (Ok before, fs)
    /\ update_dashboard w fs = (Ok (map show_field d, fig), Some f')
    /\ header f' = fieldnames
    /\ lines f' = old ++ [map to_text (values d)]
    /\ length old = length (rows before)
    /\ length (fig_x fig) = S (length (rows before))
    /\ map fst (fig_y fig)
       = [ "Download Speed (Mbps)"; "Upload Speed (Mbps)"; "Ping (ms)" ]
    /\ Forall (fun series => length (snd series) = S (length (rows before)))
              (fig_y fig).
Proof.
  intros Hd fs.
  assert (Hcan : canonical_store fs) by (apply run_triggers_from_canonical; exact I).
  destruct (load_data_canonical fs Hcan) as (before & Hload & _).
  pose proof (update_dashboard_ok w fs d before Hcan Hload Hd) as Hu.
  cbv zeta in Hu.
  set (written := render {| columns := fieldnames; rows := rows before ++ [values d] |})
    in *.
  assert (Hlen : length (rows (parse_table written)) = S (length (rows before))).
  { rewrite length_rows_parse_table. unfold written, render. cbn [lines rows].
    rewrite length_map, length_app. simpl. lia. }
  eexists before, _, written, (map (map to_text) (rows before)).
  split; [exact Hload|]. split; [exact Hu|]. split; [reflexivity|].
  split; [unfold written, render; cbn [lines rows]; now rewrite map_app|].
  split; [apply length_map|].
  cbn [fig_x fig_y]. split; [now rewrite length_map|]. split; [reflexivity|].
  repeat constructor; cbn [snd]; now rewrite length_map.
Qed.

Lemma successful_cycle_witness :
  (exists before fig f' old,
    load_data (run_triggers [world_ok "203.0.113.7" denver] None)
    = (Ok before, run_triggers [world_ok "203.0.113.7" denver] None)
    /\ update_dashboard (world_ok "98.97.0.10" plano)
         (run_triggers [world_ok "203.0.113.7" denver] None)
       = (Ok (map show_field plano_details, fig), Some f')
    /\ header f' = fieldnames
    /\ lines f' = old ++ [map to_text (values plano_details)]
    /\ length old = length (rows before)
    /\ length (fig_x fig) = S (length (rows before))
    /\ map fst (fig_y fig)
       = [ "Download Speed (Mbps)"; "Upload Speed (Mbps)"; "Ping (ms)" ]
    /\ Forall (fun series => length (snd series) = S (length (rows before)))
              (fig_y fig))
  /\ map show_field plano_details
     = [ "Timestamp: 2024-05-01 12:00:00";
         "IP Address: 98.97.0.10";
         "ISP: Space Exploration Technologies Corp";
         "City: Plano";
         "Region: Unknown";
         "Country: Unknown";
         "Latitude: 33.1";
         "Longitude: -96.8";
         "Network Type: Starlink";
         "Download Speed (Mbps): 85.123456";
         "Upload Speed (Mbps): 12.5";
         "Ping (ms): 23.456" ]
  /\ map to_text (values plano_details)
     = [ "2024-05-01 12:00:00"; "98.97.0.10";
         "Space Exploration Technologies Corp"; "Plano"; "Unknown"; "Unknown";
         "33.1"; "-96.8"; "Starlink"; "85.123456"; "12.5"; "23.456" ].
Proof.
  split; [|split; vm_compute; reflexivity].
  apply (successful_cycle [world_ok "203.0.113.7" denver]
           (world_ok "98.97.0.10" plano) plano_details).
  vm_compute. reflexivity.
Defined.

(** X9. Starting without a file, after any sequence of firings of the
    callback the file, if there is one, has the canonical header and
    exactly one line per firing whose record was built: a firing whose
    record could not be built leaves no trace, and there is no file as long
    as no record has been built. *)
Theorem one_line_per_built_record (ws : list world) :
  let built := List.filter (fun w => is_Ok (get_internet_details w)) ws in
  canonical_store (run_triggers ws None)
  /\ line_count (run_triggers ws None) = length built
  /\ (run_triggers ws None = None <-> built = []).
Proof.
  intros built. destruct (run_triggers_from_canonical ws None I) as (Hc & Hl).
  fold built in Hl. cbn [line_count Nat.add] in Hl.
  split; [exact Hc|]. split; [exact Hl|]. split.
  - intros Hnone. rewrite Hnone in Hl. cbn [line_count] in Hl.
    now destruct built.
  - apply run_triggers_no_success.
Qed.

(** X10. A file of zero bytes stops the log for good: loading it and
    appending to it raise EmptyDataError, which the program does not
    catch, so every cycle raises, with or without a record, and whatever
    the sequence of firings the file stays empty. *)
Theorem empty_file_is_never_written :
  load_data (Some empty_file) = (Raise EmptyDataError, Some empty_file)
  /\ (forall d, save_to_csv d (Some empty_file) = (Raise EmptyDataError, Some empty_file))
  /\ (forall w, exists e, update_dashboard w (Some empty_file) = (Raise e, Some empty_file))
  /\ (forall w d, get_internet_details w = Ok d ->
        update_dashboard w (Some empty_file) = (Raise EmptyDataError, Some empty_file))
  /\ (forall ws, run_triggers ws (Some empty_file) = Some empty_file).
Proof.
  assert (Hsave : forall d, save_to_csv d (Some empty_file)
                            = (Raise EmptyDataError, Some empty_file))
    by reflexivity.
  assert (Hcycle : forall w, exists e,
             update_dashboard w (Some empty_file) = (Raise e, Some empty_file)
             /\ (forall d, get_internet_details w = Ok d -> e = EmptyDataError)).
  { intros w. destruct (get_internet_details w) as [d|e] eqn:Hd.
    - exists EmptyDataError. split; [|reflexivity].
      unfold update_dashboard, lift. cbn [bind io_monad]. rewrite Hd.
      now rewrite Hsave.
    - exists e. split; [now apply update_dashboard_aborts | discriminate]. }
  split; [reflexivity|]. split; [exact Hsave|]. split; [|split].
  - intros w. destruct (Hcycle w) as (e & He & _). eauto.
  - intros w d Hd. destruct (Hcycle w) as (e & He & Hwhich).
    now rewrite <- (Hwhich d Hd).
  - induction ws as [|w ws IH]; [reflexivity|]. cbn [run_triggers].
    destruct (Hcycle w) as (e & -> & _). exact IH.
Qed.

Lemma empty_file_is_never_written_witness :
  update_dashboard (world_ok "98.97.0.10" plano) (Some empty_file)
  = (Raise EmptyDataError, Some empty_file).
Proof.
  apply (proj1 (proj2 (proj2 (proj2 empty_file_is_never_written)))
           (world_ok "98.97.0.10" plano) plano_details).
  vm_compute. reflexivity.
Defined.

(** ** Records with other keys *)

(** X11. The two branches of the append treat the keys of a record
    differently.  Without a file, the file is created under the canonical
    header whatever keys the record has: other keys are dropped and missing
    ones give empty fields.  With a file under the canonical header, the
    keys of the record outside the twelve are added as new columns after
    them, every line has one field per column, and there is one line per
    row loaded before plus one. *)
Theorem save_to_csv_columns (d : dict) :
  List.NoDup (keys d) ->
  save_to_csv d None
  = (Ok tt, Some {| header := fieldnames;
                    lines := [map (fun k => to_text (cell_or_nan d k)) fieldnames] |})
  /\ forall f before,
       header f = fieldnames -> load_data (Some f) = (Ok before, Some f) ->
       exists f',
         save_to_csv d (Some f) = (Ok tt, Some f')
         /\ header f'
            = fieldnames ++ List.filter (fun c => negb (mem c fieldnames)) (keys d)
         /\ length (lines f') = S (length (rows before))
         /\ Forall (fun l => length l = length (header f')) (lines f').
Proof.
  intros _. split; [reflexivity|].
  intros f before Hh Hload.
  unfold load_data, try_except_io, read_csv in Hload. rewrite Hh in Hload.
  cbn in Hload. injection Hload as <-.
  eexists. split.
  - unfold save_to_csv, try_except_io, read_csv. cbn [bind io_monad ret].
    rewrite Hh. cbn [fieldnames]. unfold to_csv. reflexivity.
  - unfold render, pd_concat, pd_DataFrame.
    cbn [header lines columns rows parse_table]. rewrite union_keys_one, Hh.
    split; [reflexivity|]. split.
    + rewrite length_map, length_app, !length_map. cbn [length]. lia.
    + apply List.Forall_forall. intros l Hl.
      apply in_map_iff in Hl as (r & <- & Hr). rewrite length_map.
      apply in_app_or in Hr as [Hr|Hr];
        apply in_map_iff in Hr as (r0 & <- & _); unfold reindex; apply length_map.
Qed.

Lemma save_to_csv_columns_witness :
  exists f',
    save_to_csv denver_details_extra (Some one_row_file) = (Ok tt, Some f')
    /\ header f' = fieldnames ++ [ "Postal" ]
    /\ length (lines f') = 2
    /\ Forall (fun l => length l = length (header f')) (lines f').
Proof.
  assert (Hnd : List.NoDup (keys denver_details_extra)).
  { repeat (constructor; [simpl; intuition discriminate|]). constructor. }
  exact (proj2 (save_to_csv_columns denver_details_extra Hnd)
           one_row_file _ eq_refl eq_refl).
Defined.
